(** * Kobi: a terminal text editor (src/kobi.py)

    The editor is a thin layer of key handlers over a widget toolkit
    (prompt_toolkit 3.0: [TextArea], [Buffer], [Document], the key
    processor).  The handlers are embedded from src/kobi.py; the toolkit
    objects they drive are embedded from the toolkit's code, restricted to
    the fields and methods the handlers reach.  Python text is modelled as
    sequences of code points below 256. *)

From Stdlib Require Import ZArith List Bool Arith Lia.
From Stdlib Require Import Strings.String Strings.Ascii Numbers.DecimalString.
From Stdlib Require DecimalPos DecimalFacts.
Import ListNotations.
Open Scope string_scope.

(** ** Python values the handlers compute with *)
Module Py.

(** Exceptions that reach the handlers. *)
Inductive exn : Type :=
| AttributeError (cls attr : string)
| AssertionError
| ValueError
| EOFError
| FileNotFoundError
| OSError (reason : string)
| ClassNotFound.

Inductive result (A : Type) : Type :=
| Ok (a : A)
| Raise (e : exn).
Arguments Ok {A} a.
Arguments Raise {A} e.

(** How a call that returns nothing ends. *)
Inductive outcome : Type :=
| Done
| Raised (e : exn).

(** [len(s)] as a Python int. *)
Definition len (s : string) : Z := Z.of_nat (String.length s).

(** [s[:n]] and [s[n:]] for a non-negative [n]. *)
Fixpoint take (n : nat) (s : string) : string :=
  match n, s with
  | S n', String c s' => String c (take n' s')
  | _, _ => EmptyString
  end.

Fixpoint drop (n : nat) (s : string) : string :=
  match n, s with
  | S n', String _ s' => drop n' s'
  | _, _ => s
  end.

(** [s[a:b]] for [0 <= a <= b]. *)
Definition slice (a b : nat) (s : string) : string := take (b - a) (drop a s).

Definition newline : ascii := "010"%char.

(** [s.split("\n")]: never empty; a text without a line break is one line. *)
Fixpoint split_lines (s : string) : list string :=
  match s with
  | EmptyString => [EmptyString]
  | String c rest =>
      if Ascii.eqb c newline then EmptyString :: split_lines rest
      else match split_lines rest with
           | l :: ls => String c l :: ls
           | [] => [String c EmptyString]
           end
  end.

(** [s.rpartition("\n")[2]]: what follows the last line break, or all of [s]
    when it has none. *)
Definition after_last_newline (s : string) : string :=
  last (split_lines s) EmptyString.

(** [s.partition("\n")[0]]: what precedes the first line break, or all of
    [s] when it has none. *)
Definition before_first_newline (s : string) : string :=
  hd EmptyString (split_lines s).

(** Characters [str.isspace] accepts, below 256: tab to carriage return, the
    four separators from U+001C, the blank, U+0085 and U+00A0. *)
Definition is_space (c : ascii) : bool :=
  let n := nat_of_ascii c in
  ((9 <=? n)%nat && (n <=? 13)%nat) || ((28 <=? n)%nat && (n <=? 32)%nat)
  || (n =? 133)%nat || (n =? 160)%nat.

(** [s.lstrip()]. *)
Fixpoint lstrip (s : string) : string :=
  match s with
  | EmptyString => EmptyString
  | String c rest => if is_space c then lstrip rest else s
  end.

(** Characters accepted by [int]: the decimal digits. *)
Definition is_decimal (c : ascii) : bool :=
  let n := nat_of_ascii c in (48 <=? n)%nat && (n <=? 57)%nat.

(** Characters accepted by [str.isdigit]: the decimal digits and, below 256,
    the superscripts U+00B2, U+00B3 and U+00B9. *)
Definition is_digit (c : ascii) : bool :=
  let n := nat_of_ascii c in
  is_decimal c || (n =? 178)%nat || (n =? 179)%nat || (n =? 185)%nat.

Fixpoint all_chars (p : ascii -> bool) (s : string) : bool :=
  match s with
  | EmptyString => true
  | String c rest => p c && all_chars p rest
  end.

(** [s.isdigit()]: at least one character, and every character a digit. *)
Definition isdigit (s : string) : bool :=
  match s with
  | EmptyString => false
  | _ => all_chars is_digit s
  end.

Fixpoint int_digits (acc : Z) (s : string) : Z :=
  match s with
  | EmptyString => acc
  | String c rest => int_digits (10 * acc + Z.of_nat (nat_of_ascii c - 48)) rest
  end.

(** [sys.get_int_max_str_digits()]: the longest text [int] converts. *)
Definition max_str_digits : nat := 4300.

(** [int(s)] on a string without sign, blanks or underscores (every string
    that passes [isdigit] is one): [ValueError] unless all characters are
    decimal digits, and there are no more of them than [max_str_digits]
    (leading zeros count). *)
Definition int (s : string) : result Z :=
  match s with
  | EmptyString => Raise ValueError
  | _ =>
      if all_chars is_decimal s then
        if (max_str_digits <? String.length s)%nat then Raise ValueError
        else Ok (int_digits 0 s)
      else Raise ValueError
  end.

(** [str(n)] for an int of no more than [max_str_digits] digits. *)
Definition str (n : Z) : string := NilZero.string_of_int (Z.to_int n).

(** [sys.maxsize] of a 64-bit build: no string is longer. *)
Definition maxsize : Z := (2 ^ 63 - 1)%Z.

(** [l[i]] with Python's negative indices; [None] stands for [IndexError]. *)
Definition index {A : Type} (l : list A) (i : Z) : option A :=
  let n := Z.of_nat (List.length l) in
  if (0 <=? i)%Z && (i <? n)%Z then nth_error l (Z.to_nat i)
  else if (- n <=? i)%Z && (i <? 0)%Z then nth_error l (Z.to_nat (n + i))
  else None.

(** [bisect.bisect_right(l, x)] on an increasing list. *)
Fixpoint bisect_right (l : list nat) (x : nat) : nat :=
  match l with
  | [] => 0
  | y :: r => if (y <=? x)%nat then S (bisect_right r x) else 0
  end.

End Py.

(** ** The toolkit objects behind the editor widget *)
Module Toolkit.
Import Py.

(** [SelectionState]: present on the buffer while a selection is active; the
    selections of this embedding are not in shift mode (the constructor's
    default). *)
Record SelectionState : Type := mkSelection { original_cursor_position : nat }.

(** [ClipboardData]. *)
Record ClipboardData : Type := mkClipboardData { clip_text : string }.

(** *** Document: an immutable text with a cursor *)
Record Document : Type := mkDocument {
  doc_text : string;
  doc_cursor_position : nat;
  doc_selection : option SelectionState
}.

(** [Document(text, cursor_position)]: the constructor asserts that the cursor
    is not behind the end of the text. *)
Definition new_document (text : string) (cursor_position : nat) : result Document :=
  if (String.length text <? cursor_position)%nat then Raise AssertionError
  else Ok (mkDocument text cursor_position None).

(** [Document.lines]. *)
Definition lines (d : Document) : list string := split_lines (doc_text d).

Fixpoint cumulative (pos : nat) (ls : list string) : list nat :=
  match ls with
  | [] => []
  | l :: r => let pos' := (pos + (String.length l + 1))%nat in pos' :: cumulative pos' r
  end.

(** [Document._line_start_indexes]: the running sums of the line lengths,
    each plus one, starting from 0, with the last sum removed. *)
Definition line_start_indexes (d : Document) : list nat :=
  let indexes := 0%nat :: cumulative 0 (lines d) in
  if (1 <? List.length indexes)%nat then removelast indexes else indexes.

(** [Document.translate_row_col_to_index]. *)
Definition translate_row_col_to_index (d : Document) (row col : Z) : Z :=
  let '(result, line) :=
    match index (line_start_indexes d) row, index (lines d) row with
    | Some r, Some l => (r, l)
    | _, _ =>
        if (row <? 0)%Z
        then (hd 0%nat (line_start_indexes d), hd EmptyString (lines d))
        else (last (line_start_indexes d) 0%nat, last (lines d) EmptyString)
    end in
  let result := (Z.of_nat result + Z.max 0 (Z.min col (len line)))%Z in
  Z.max 0 (Z.min result (len (doc_text d))).

(** [Document._find_line_start_index]: (row, start index of that row). *)
Definition find_line_start_index (d : Document) (i : nat) : nat * nat :=
  let indexes := line_start_indexes d in
  let pos := (bisect_right indexes i - 1)%nat in
  (pos, nth pos indexes 0%nat).

Definition cursor_position_row (d : Document) : nat :=
  fst (find_line_start_index d (doc_cursor_position d)).

Definition cursor_position_col (d : Document) : nat :=
  (doc_cursor_position d - snd (find_line_start_index d (doc_cursor_position d)))%nat.

(** [Document.current_line_before_cursor] and [current_line_after_cursor]. *)
Definition current_line_before_cursor (d : Document) : string :=
  after_last_newline (take (doc_cursor_position d) (doc_text d)).

Definition current_line_after_cursor (d : Document) : string :=
  before_first_newline (drop (doc_cursor_position d) (doc_text d)).

(** [Document.current_line]. *)
Definition current_line (d : Document) : string :=
  current_line_before_cursor d ++ current_line_after_cursor d.

(** [Document.leading_whitespace_in_current_line]. *)
Definition leading_whitespace_in_current_line (d : Document) : string :=
  let length := (String.length (current_line d)
                 - String.length (lstrip (current_line d)))%nat in
  take length (current_line d).

(** *** Buffer: the mutable text, cursor, selection and undo/redo stacks

    The stacks hold [(text, cursor_position)] snapshots; the head of the list
    is the top of the stack (the end of the Python list).  The buffer has no
    other attribute the editor could reach: there is no [search_state] and no
    [delete_selection], and a document has no [selection_range_text]. *)
Record Buffer : Type := mkBuffer {
  text : string;
  cursor_position : nat;
  selection_state : option SelectionState;
  undo_stack : list (string * nat);
  redo_stack : list (string * nat)
}.

(** [Buffer.document]. *)
Definition document (b : Buffer) : Document :=
  mkDocument (text b) (cursor_position b) (selection_state b).

(** [Buffer(document=Document(text, 0))], as the text area creates it. *)
Definition new_buffer (content : string) : Buffer :=
  mkBuffer content 0 None [] [].

(** The [cursor_position] setter: the value is kept inside the text. *)
Definition set_cursor_position (value : Z) (b : Buffer) : Buffer :=
  let value := if (len (text b) <? value)%Z then len (text b) else value in
  let value := if (value <? 0)%Z then 0%Z else value in
  mkBuffer (text b) (Z.to_nat (Z.max 0 value)) (selection_state b)
           (undo_stack b) (redo_stack b).

(** [Buffer.set_document]: text and cursor are replaced together; a changed
    text drops the selection ([_text_changed]). *)
Definition set_document (d : Document) (b : Buffer) : Buffer :=
  mkBuffer (doc_text d) (doc_cursor_position d)
           (if String.eqb (doc_text d) (text b) then selection_state b else None)
           (undo_stack b) (redo_stack b).

(** [Buffer.insert_text(data)]. *)
Definition insert_text (data : string) (b : Buffer) : Buffer * outcome :=
  let otext := text b in
  let ocpos := cursor_position b in
  let text' := take ocpos otext ++ data ++ drop ocpos otext in
  let cpos := (ocpos + String.length data)%nat in
  match new_document text' cpos with
  | Ok d => (set_document d b, Done)
  | Raise e => (b, Raised e)
  end.

(** [Buffer.newline(copy_margin=True)]: the line break takes the margin of
    the current line along. *)
Definition buffer_newline (b : Buffer) : Buffer * outcome :=
  insert_text (String newline (leading_whitespace_in_current_line (document b))) b.

(** [Buffer.delete_before_cursor(count=1)]; the deleted text it returns is
    only used to ring the bell. *)
Definition delete_before_cursor (b : Buffer) : Buffer * outcome :=
  if (0 <? cursor_position b)%nat then
    let deleted := slice (cursor_position b - 1) (cursor_position b) (text b) in
    let new_text := take (cursor_position b - 1) (text b)
                    ++ drop (cursor_position b) (text b) in
    let new_cursor_position := (cursor_position b - String.length deleted)%nat in
    match new_document new_text new_cursor_position with
    | Ok d => (set_document d b, Done)
    | Raise e => (b, Raised e)
    end
  else (b, Done).

(** [Buffer.save_to_undo_stack(clear_redo_stack)]. *)
Definition save_to_undo_stack (clear_redo_stack : bool) (b : Buffer) : Buffer :=
  let stack :=
    match undo_stack b with
    | (t, p) :: rest =>
        if String.eqb t (text b) then (t, cursor_position b) :: rest
        else (text b, cursor_position b) :: (t, p) :: rest
    | [] => [(text b, cursor_position b)]
    end in
  mkBuffer (text b) (cursor_position b) (selection_state b) stack
           (if clear_redo_stack then [] else redo_stack b).

(** The loop of [Buffer.undo]: pop until a snapshot with another text. *)
Fixpoint undo_loop (stack : list (string * nat)) (b : Buffer) : Buffer * outcome :=
  match stack with
  | [] => (mkBuffer (text b) (cursor_position b) (selection_state b) [] (redo_stack b), Done)
  | (t, pos) :: rest =>
      if String.eqb t (text b) then undo_loop rest b
      else
        let b1 := mkBuffer (text b) (cursor_position b) (selection_state b) rest
                           ((text b, cursor_position b) :: redo_stack b) in
        match new_document t pos with
        | Ok d => (set_document d b1, Done)
        | Raise e => (b1, Raised e)
        end
  end.

(** [Buffer.undo()]. *)
Definition undo (b : Buffer) : Buffer * outcome := undo_loop (undo_stack b) b.

(** [Buffer.redo()]. *)
Definition redo (b : Buffer) : Buffer * outcome :=
  match redo_stack b with
  | [] => (b, Done)
  | _ :: _ =>
      let b1 := save_to_undo_stack false b in
      match redo_stack b1 with
      | (t, pos) :: rest =>
          let b2 := mkBuffer (text b1) (cursor_position b1) (selection_state b1)
                             (undo_stack b1) rest in
          match new_document t pos with
          | Ok d => (set_document d b2, Done)
          | Raise e => (b2, Raised e)
          end
      | [] => (b1, Done)
      end
  end.

(** *** Lexers *)
Inductive Lexer : Type := PygmentsLexer (cls : string).

(** Styled fragments of one line. *)
Definition fragments : Type := list (string * string).

(** [SimpleLexer().lex_document(document)(lineno)]: the whole line as one
    fragment without style. *)
Definition simple_lex (d : Document) (lineno : nat) : fragments :=
  match nth_error (lines d) lineno with
  | Some l => [(EmptyString, l)]
  | None => []
  end.

(** [DynamicLexer(lambda: lexer).lex_document]: the text area falls back to
    the simple lexer when it was given none. *)
Definition dynamic_lex (pygments_lex : string -> Document -> nat -> fragments)
    (lexer : option Lexer) (d : Document) (lineno : nat) : fragments :=
  match lexer with
  | Some (PygmentsLexer cls) => pygments_lex cls d lineno
  | None => simple_lex d lineno
  end.

End Toolkit.

(** ** The editor: src/kobi.py *)
Module Kobi.
Import Py Toolkit.

(** [filename = sys.argv[1] if len(sys.argv) > 1 else "newfile.txt"]. *)
Definition filename (argv : list string) : string :=
  if (1 <? List.length argv)%nat then nth 1 argv EmptyString else "newfile.txt".

Section Collaborators.

(** [open(name, "r", encoding="utf-8").read()]: the file's text, or the
    exception the file system raises. *)
Variable fs_read : string -> result string.

(** [pygments.lexers.guess_lexer_for_filename]: the name of the lexer
    class, or [ClassNotFound]. *)
Variable guess_lexer_for_filename : string -> string -> result string.

Definition load_file (name : string) : result string :=
  match fs_read name with
  | Ok content => Ok content
  | Raise FileNotFoundError => Ok EmptyString
  | Raise e => Raise e
  end.

Definition make_lexer (name text : string) : result (option Lexer) :=
  match guess_lexer_for_filename name text with
  | Ok pyg => Ok (Some (PygmentsLexer pyg))
  | Raise ClassNotFound => Ok None
  | Raise e => Raise e
  end.

End Collaborators.

(** The handlers registered on [kb], and the toolkit's own bindings for
    printable keys ([Keys.Any], self-insert), for Enter (the newline handler
    of a multiline buffer) and for backspace (backward-delete-char); with a
    selection Enter and backspace reach the toolkit's do-nothing handler. *)
Inductive Binding : Type :=
| BSave | BQuit | BFind | BGoto | BCopy | BCut | BPaste | BUndo | BRedo
| BSelfInsert | BNewline | BBackwardDelete | BIgnore.

Definition binding_eqb (a b : Binding) : bool :=
  match a, b with
  | BSave, BSave | BQuit, BQuit | BFind, BFind | BGoto, BGoto
  | BCopy, BCopy | BCut, BCut | BPaste, BPaste | BUndo, BUndo
  | BRedo, BRedo | BSelfInsert, BSelfInsert | BNewline, BNewline
  | BBackwardDelete, BBackwardDelete | BIgnore, BIgnore => true
  | _, _ => false
  end.

(** The module globals and the objects of the running application. *)
Record Editor : Type := mkEditor {
  ed_filename : string;                      (* filename *)
  ed_lexer : option Lexer;                   (* lexer *)
  ed_buffer : Buffer;                        (* editor.buffer *)
  ed_message : string;                       (* message *)
  ed_clipboard : option ClipboardData;       (* app.clipboard.get_data() *)
  ed_previous_handler : option Binding;      (* key processor *)
  ed_exited : bool                           (* app.exit() was called *)
}.

Definition with_buffer (b : Buffer) (ed : Editor) : Editor :=
  mkEditor (ed_filename ed) (ed_lexer ed) b (ed_message ed) (ed_clipboard ed)
           (ed_previous_handler ed) (ed_exited ed).

Definition with_message (m : string) (ed : Editor) : Editor :=
  mkEditor (ed_filename ed) (ed_lexer ed) (ed_buffer ed) m (ed_clipboard ed)
           (ed_previous_handler ed) (ed_exited ed).

Definition with_previous_handler (h : option Binding) (ed : Editor) : Editor :=
  mkEditor (ed_filename ed) (ed_lexer ed) (ed_buffer ed) (ed_message ed)
           (ed_clipboard ed) h (ed_exited ed).

(** Module level of kobi.py up to [app.run()]: the file is loaded, the lexer
    guessed, the text area created; the application starts with an in-memory
    clipboard, which hands out an empty [ClipboardData]. *)
Definition startup (fs_read : string -> result string)
    (guess_lexer_for_filename : string -> string -> result string)
    (argv : list string) : result Editor :=
  let name := filename argv in
  match load_file fs_read name with
  | Raise e => Raise e
  | Ok content =>
      match make_lexer guess_lexer_for_filename name content with
      | Raise e => Raise e
      | Ok lexer =>
          Ok (mkEditor name lexer (new_buffer content) EmptyString
                       (Some (mkClipboardData EmptyString)) None false)
      end
  end.

Definition get_statusbar_text (ed : Editor) : string :=
  let row := (cursor_position_row (document (ed_buffer ed)) + 1)%nat in
  let col := (cursor_position_col (document (ed_buffer ed)) + 1)%nat in
  " " ++ ed_filename ed ++ " | Ln " ++ str (Z.of_nat row) ++ ", Col "
      ++ str (Z.of_nat col) ++ " " ++ ed_message ed ++ " ".

(** The files on disk, as path and content; the first entry of a path is
    the file. *)
Definition Disk : Type := list (string * string).


Definition disk_store (name content : string) (d : Disk) : Disk :=
  (name, content) :: d.

(** How the file system treats one save: [open(name, "w")] may raise and
    leave the file alone; once it has opened (and emptied) the file, the
    write or the close may raise after some of the text has reached it. *)
Inductive write_fault : Type :=
| NoFault
| OpenFails (e : exn)
| WriteFails (e : exn) (written : nat).

(** The file system a save meets: what is on disk, and how it will behave. *)
Record FileSystem : Type := mkFileSystem {
  fs_disk : Disk;
  fs_fault : write_fault
}.

(** [save_file]: the editor, the disk and how the call ends. *)
Definition save_file (fs : FileSystem) (name : string) (ed : Editor)
    : Editor * Disk * outcome :=
  match fs_fault fs with
  | OpenFails e => (ed, fs_disk fs, Raised e)
  | WriteFails e written =>
      (ed, disk_store name (take written (text (ed_buffer ed))) (fs_disk fs),
       Raised e)
  | NoFault =>
      (with_message " [Saved]" ed,
       disk_store name (text (ed_buffer ed)) (fs_disk fs), Done)
  end.

(** Ctrl+S *)
Definition on_save (fs : FileSystem) (ed : Editor) : Editor * Disk * outcome :=
  save_file fs (ed_filename ed) ed.

(** Ctrl+Q *)
Definition on_quit (ed : Editor) : Editor * outcome :=
  (mkEditor (ed_filename ed) (ed_lexer ed) (ed_buffer ed) (ed_message ed)
            (ed_clipboard ed) (ed_previous_handler ed) true, Done).

(** Ctrl+F; [answer] is what [input("Find: ")] returns or raises.  A
    non-empty term reaches [editor.buffer.search_state], an attribute the
    buffer does not have. *)
Definition on_find (answer : result string) (ed : Editor) : Editor * outcome :=
  match answer with
  | Raise e => (ed, Raised e)
  | Ok term =>
      match term with
      | EmptyString => (ed, Done)
      | String _ _ => (ed, Raised (AttributeError "Buffer" "search_state"))
      end
  end.

(** Ctrl+G; [answer] is what [input("Go to line: ")] returns or raises. *)
Definition on_goto (answer : result string) (ed : Editor) : Editor * outcome :=
  match answer with
  | Raise e => (ed, Raised e)
  | Ok line_str =>
      if isdigit line_str then
        match int line_str with
        | Raise e => (ed, Raised e)
        | Ok n =>
            let line := (n - 1)%Z in
            let i := translate_row_col_to_index (document (ed_buffer ed)) line 0 in
            (with_message (" [Line " ++ str (line + 1) ++ "]")
               (with_buffer (set_cursor_position i (ed_buffer ed)) ed), Done)
        end
      else (ed, Done)
  end.

(** Ctrl+C.  With a selection the handler reads
    [buf.document.selection_range_text], which a document does not have. *)
Definition on_copy (ed : Editor) : Editor * outcome :=
  match selection_state (ed_buffer ed) with
  | Some _ => (ed, Raised (AttributeError "Document" "selection_range_text"))
  | None => (with_message " [No Selection]" ed, Done)
  end.

(** Ctrl+X, with the same first steps as Ctrl+C. *)
Definition on_cut (ed : Editor) : Editor * outcome :=
  match selection_state (ed_buffer ed) with
  | Some _ => (ed, Raised (AttributeError "Document" "selection_range_text"))
  | None => (with_message " [No Selection]" ed, Done)
  end.

(** Ctrl+V *)
Definition on_paste (ed : Editor) : Editor * outcome :=
  match ed_clipboard ed with
  | Some data =>
      match clip_text data with
      | EmptyString => (ed, Done)
      | String _ _ =>
          match insert_text (clip_text data) (ed_buffer ed) with
          | (b, Done) => (with_message " [Pasted]" (with_buffer b ed), Done)
          | (b, Raised e) => (with_buffer b ed, Raised e)
          end
      end
  | None => (ed, Done)
  end.

(** Ctrl+Z *)
Definition on_undo (ed : Editor) : Editor * outcome :=
  match undo (ed_buffer ed) with
  | (b, Done) => (with_message " [Undo]" (with_buffer b ed), Done)
  | (b, Raised e) => (with_buffer b ed, Raised e)
  end.

(** Ctrl+Y *)
Definition on_redo (ed : Editor) : Editor * outcome :=
  match redo (ed_buffer ed) with
  | (b, Done) => (with_message " [Redo]" (with_buffer b ed), Done)
  | (b, Raised e) => (with_buffer b ed, Raised e)
  end.

(** The toolkit's self-insert command: [insert_text(event.data)]. *)
Definition self_insert (c : ascii) (ed : Editor) : Editor * outcome :=
  match insert_text (String c EmptyString) (ed_buffer ed) with
  | (b, o) => (with_buffer b ed, o)
  end.

(** The toolkit's handler of Enter in a multiline buffer:
    [event.current_buffer.newline(copy_margin=not in_paste_mode())], and the
    application is not in paste mode. *)
Definition newline_handler (ed : Editor) : Editor * outcome :=
  match buffer_newline (ed_buffer ed) with
  | (b, o) => (with_buffer b ed, o)
  end.

(** The toolkit's backward-delete-char command. *)
Definition backward_delete_char (ed : Editor) : Editor * outcome :=
  match delete_before_cursor (ed_buffer ed) with
  | (b, o) => (with_buffer b ed, o)
  end.

(** *** Key events and the key processor *)

(** The characters a terminal sends as themselves: the control bytes are
    keys of their own (Enter, Tab, Ctrl+K, ...). *)
Definition is_printable (c : ascii) : bool :=
  let n := nat_of_ascii c in
  ((32 <=? n)%nat && (n <=? 126)%nat) || (160 <=? n)%nat.

Record printable : Type := mkPrintable {
  pr_char : ascii;
  pr_ok : is_printable pr_char = true
}.

(** A key the processor hands to one of the bindings above, with what the
    outside world answers while it is handled.  Which keys of the terminal
    make up such an event (a lone Ctrl+X is handed to its handler only when
    no longer binding of the toolkit takes the keys that follow) is the
    processor's matching, which is not part of this embedding; nor are the
    toolkit's other bindings. *)
Inductive Key : Type :=
| CtrlS (fs : FileSystem)
| CtrlQ
| CtrlF (answer : result string)
| CtrlG (answer : result string)
| CtrlC | CtrlX | CtrlV | CtrlZ | CtrlY
| Typed (c : printable)
| Enter
| Backspace.

(** The binding a key reaches.  Self-insert, newline and
    backward-delete-char are filtered on insert mode, which a selection
    switches off. *)
Definition binding_of (k : Key) (ed : Editor) : option Binding :=
  match k with
  | CtrlS _ => Some BSave
  | CtrlQ => Some BQuit
  | CtrlF _ => Some BFind
  | CtrlG _ => Some BGoto
  | CtrlC => Some BCopy
  | CtrlX => Some BCut
  | CtrlV => Some BPaste
  | CtrlZ => Some BUndo
  | CtrlY => Some BRedo
  | Typed _ =>
      match selection_state (ed_buffer ed) with
      | None => Some BSelfInsert
      | Some _ => None
      end
  | Enter =>
      match selection_state (ed_buffer ed) with
      | None => Some BNewline
      | Some _ => Some BIgnore
      end
  | Backspace =>
      match selection_state (ed_buffer ed) with
      | None => Some BBackwardDelete
      | Some _ => Some BIgnore
      end
  end.

(** [save_before]: [kb.add] leaves the default, which is always.  The toolkit
    registers self-insert and backward-delete-char as existing [Binding]
    objects, and [KeyBindings.add] then keeps the [save_before] of the
    object, the default again, not the [if_no_repeat] passed along. *)
Definition save_before (h : Binding) (is_repeat : bool) : bool := true.

Definition call (k : Key) (ed : Editor) : Editor * outcome :=
  match k with
  | CtrlS fs => let '(ed', _, o) := on_save fs ed in (ed', o)
  | CtrlQ => on_quit ed
  | CtrlF answer => on_find answer ed
  | CtrlG answer => on_goto answer ed
  | CtrlC => on_copy ed
  | CtrlX => on_cut ed
  | CtrlV => on_paste ed
  | CtrlZ => on_undo ed
  | CtrlY => on_redo ed
  | Typed c => self_insert (pr_char c) ed
  | Enter =>
      match selection_state (ed_buffer ed) with
      | None => newline_handler ed
      | Some _ => (ed, Done)
      end
  | Backspace =>
      match selection_state (ed_buffer ed) with
      | None => backward_delete_char ed
      | Some _ => (ed, Done)
      end
  end.

(** [KeyProcessor._call_handler]: the buffer is saved to the undo stack when
    the binding asks for it (every binding here does), then the handler
    runs.  An exception leaves the handler and the processor, which is reset;
    the event loop reports it and goes on. *)
Definition press (k : Key) (ed : Editor) : Editor * outcome :=
  if ed_exited ed then (ed, Done)
  else
    match binding_of k ed with
    | None => (ed, Done)
    | Some h =>
        let is_repeat :=
          match ed_previous_handler ed with
          | Some h' => binding_eqb h h'
          | None => false
          end in
        let ed1 :=
          if save_before h is_repeat
          then with_buffer (save_to_undo_stack true (ed_buffer ed)) ed
          else ed in
        match call k ed1 with
        | (ed2, Done) => (with_previous_handler (Some h) ed2, Done)
        | (ed2, Raised e) => (with_previous_handler None ed2, Raised e)
        end
    end.

(** The event loop on a sequence of key presses. *)
Definition run (ks : list Key) (ed : Editor) : Editor :=
  fold_left (fun e k => fst (press k e)) ks ed.

(** *** Undo steps *)

(** The buffer invariant: the cursor is inside the text or right after it. *)
Definition valid (ed : Editor) : Prop :=
  (cursor_position (ed_buffer ed) <= String.length (text (ed_buffer ed)))%nat.

(** A key that edits the text, in the state it is pressed in: an insert (a
    typed character, a line break, a paste of a non-empty clipboard text) or
    a delete (a backspace with text before the cursor). *)
Definition own_undo_step (k : Key) (ed : Editor) : bool :=
  negb (ed_exited ed) &&
  match k with
  | CtrlV =>
      match ed_clipboard ed with
      | Some data => negb (String.eqb (clip_text data) EmptyString)
      | None => false
      end
  | Typed _ | Enter =>
      match selection_state (ed_buffer ed) with
      | None => true
      | Some _ => false
      end
  | Backspace =>
      match selection_state (ed_buffer ed) with
      | None => (0 <? cursor_position (ed_buffer ed))%nat
      | Some _ => false
      end
  | _ => false
  end.

(** Every key of the sequence, in the state it is pressed in, is such an edit. *)
Fixpoint own_undo_steps (ks : list Key) (ed : Editor) : bool :=
  match ks with
  | [] => true
  | k :: r => own_undo_step k ed && own_undo_steps r (fst (press k ed))
  end.

End Kobi.

(** * Properties *)

Import Py Toolkit Kobi.

(** ** Concrete editors used below *)

Definition nl : string := String newline EmptyString.

(** A freshly started editor on a missing file. *)
Definition fresh_editor : Editor :=
  mkEditor "newfile.txt" None (new_buffer EmptyString) EmptyString
           (Some (mkClipboardData EmptyString)) None false.

(** A file system without files, and a lexer library that knows no
    language. *)
Definition no_files (name : string) : result string := Raise FileNotFoundError.
Definition no_language (name text : string) : result string := Raise ClassNotFound.

(** A disk that holds an older "notes.txt" and runs full after two
    characters of the next write. *)
Definition disk_full : FileSystem :=
  mkFileSystem [("notes.txt", "old words"); ("todo.txt", "buy milk")]
               (WriteFails (OSError "No space left on device") 2).

Definition ten_lines : Editor :=
  mkEditor "ten.txt" None
    (new_buffer ("1" ++ nl ++ "2" ++ nl ++ "3" ++ nl ++ "4" ++ nl ++ "5" ++ nl
                 ++ "6" ++ nl ++ "7" ++ nl ++ "8" ++ nl ++ "9" ++ nl ++ "10"))
    EmptyString (Some (mkClipboardData EmptyString)) None false.

Definition foo_bar_foo : Editor :=
  mkEditor "notes.txt" None (new_buffer "foo bar foo") EmptyString
           (Some (mkClipboardData EmptyString)) None false.

(** An editor in the middle of a session, with text on the clipboard. *)
Definition hello : Editor :=
  mkEditor "notes.txt" None
           (mkBuffer "hello" 2 None [("hello", 0%nat); ("h", 1%nat)] [])
           EmptyString (Some (mkClipboardData "zz")) None false.

(** An editor with the cursor at the end of an indented line. *)
Definition indented : Editor :=
  mkEditor "notes.txt" None (mkBuffer "  ab" 4 None [] [])
           EmptyString None None false.

(** ** Auxiliary notions *)

(** The text begins with a blank character. *)
Definition starts_with_space (s : string) : bool :=
  match s with
  | EmptyString => false
  | String c _ => is_space c
  end.

(** Total length of the lines, each counted with its line break. *)
Fixpoint total (ls : list string) : nat :=
  match ls with
  | [] => 0
  | l :: r => String.length l + 1 + total r
  end.

(** What [Buffer.undo] skips: the snapshots on top that hold the text [t]. *)
Fixpoint strip (t : string) (stack : list (string * nat)) : list (string * nat) :=
  match stack with
  | (t', p) :: rest => if String.eqb t' t then strip t rest else stack
  | [] => []
  end.

(** A list of offsets that grows strictly, starting above [lo]. *)
Fixpoint increasing_from (lo : nat) (l : list nat) : Prop :=
  match l with
  | [] => True
  | x :: r => (lo < x)%nat /\ increasing_from x r
  end.

(** A run of "0" characters. *)
Fixpoint zeros (n : nat) : string :=
  match n with
  | O => EmptyString
  | S m => String "0" (zeros m)
  end.

(** A character as a key, when it is printable. *)
Definition printable_of (c : ascii) : option printable :=
  match is_printable c as b return is_printable c = b -> option printable with
  | true => fun H => Some (mkPrintable c H)
  | false => fun _ => None
  end eq_refl.

(** The printable characters of a string, as keys to type. *)
Fixpoint printables (s : string) : list printable :=
  match s with
  | EmptyString => []
  | String c rest =>
      match printable_of c with
      | Some p => p :: printables rest
      | None => printables rest
      end
  end.

(** The text a list of typed characters spells. *)
Fixpoint chars (cs : list printable) : string :=
  match cs with
  | [] => EmptyString
  | c :: r => String (pr_char c) (chars r)
  end.

(** The key events that type the characters one after the other. *)
Definition typed (cs : list printable) : list Key := map Typed cs.

(** Five edits of the hello editor: the letter a, a line break, a paste, a
    backspace and the letter b. *)
Definition edits_of_hello : list Key :=
  typed (printables "a") ++ [Enter; CtrlV; Backspace] ++ typed (printables "b").

(** The hello editor after a paste and an undo: the pasted text is on the
    redo stack. *)
Definition hello_undone : Editor := run [CtrlV; CtrlZ] hello.

(** The prompts that end without a usable answer: an aborted find or
    go-to-line prompt, an empty find query, a go-to-line answer that is no
    number. *)
Definition unanswered (k : Key) : bool :=
  match k with
  | CtrlF (Raise _) | CtrlG (Raise _) => true
  | CtrlF (Ok term) => String.eqb term EmptyString
  | CtrlG (Ok line_str) =>
      negb (isdigit line_str)
      || match int line_str with Raise _ => true | Ok _ => false end
  | _ => false
  end.

(** The keys whose handlers can change the text. *)
Definition editing_key (k : Key) : bool :=
  match k with
  | CtrlV | CtrlZ | CtrlY | Typed _ | Enter | Backspace => true
  | _ => false
  end.

(** ** Saving (Ctrl+S) *)







(** ** Searching (Ctrl+F) *)

Lemma find_nonempty_raises :
  forall c term ed,
    on_find (Ok (String c term)) ed
    = (ed, Raised (AttributeError "Buffer" "search_state")).
Proof. reflexivity. Qed.

(** C4.  Query "foo" in "foo bar foo" with the cursor at offset 0: the find
    handler stops with [AttributeError] before any search is made, and the
    cursor stays at offset 0, on the first call and on the second. *)
Theorem find_foo_never_moves :
  on_find (Ok "foo") foo_bar_foo
  = (foo_bar_foo, Raised (AttributeError "Buffer" "search_state")) /\
  snd (press (CtrlF (Ok "foo")) foo_bar_foo)
  = Raised (AttributeError "Buffer" "search_state") /\
  cursor_position (ed_buffer (run [CtrlF (Ok "foo")] foo_bar_foo)) = 0%nat /\
  cursor_position (ed_buffer (run [CtrlF (Ok "foo"); CtrlF (Ok "foo")] foo_bar_foo)) = 0%nat.
Proof. repeat split; reflexivity. Qed.

(** ** Copy and cut without a selection (Ctrl+C, Ctrl+X) *)

(** C5.  Without a selection, cut and copy end normally with the status
    " [No Selection]"; nothing is handed to the clipboard and the buffer
    (text, cursor, selection, history) is as before. *)
Theorem no_selection_is_a_noop :
  forall ed : Editor,
    selection_state (ed_buffer ed) = None ->
    on_cut ed = (with_message " [No Selection]" ed, Done) /\
    on_copy ed = (with_message " [No Selection]" ed, Done) /\
    ed_buffer (fst (on_cut ed)) = ed_buffer ed /\
    ed_clipboard (fst (on_cut ed)) = ed_clipboard ed /\
    ed_buffer (fst (on_copy ed)) = ed_buffer ed /\
    ed_clipboard (fst (on_copy ed)) = ed_clipboard ed.
Proof.
  intros ed H. unfold on_cut, on_copy. rewrite H. simpl. repeat split.
Qed.

Lemma no_selection_is_a_noop_fresh :
  selection_state (ed_buffer fresh_editor) = None /\
  on_cut fresh_editor = (with_message " [No Selection]" fresh_editor, Done).
Proof.
  split; [reflexivity|].
  exact (proj1 (no_selection_is_a_noop fresh_editor eq_refl)).
Defined.

(** ** Loading *)

(** C6.  When the file does not exist, loading returns the empty text instead
    of failing, and the editor starts on a buffer of one empty line with the
    cursor at its start. *)
Theorem load_missing_file_starts_empty :
  forall (fs_read : string -> result string)
         (guess : string -> string -> result string) (argv : list string),
    fs_read (filename argv) = Raise FileNotFoundError ->
    load_file fs_read (filename argv) = Ok EmptyString /\
    startup fs_read guess argv
    = match make_lexer guess (filename argv) EmptyString with
      | Ok lexer =>
          Ok (mkEditor (filename argv) lexer (new_buffer EmptyString) EmptyString
                       (Some (mkClipboardData EmptyString)) None false)
      | Raise e => Raise e
      end /\
    lines (document (new_buffer EmptyString)) = [EmptyString] /\
    cursor_position (new_buffer EmptyString) = 0%nat.
Proof.
  intros fs_read guess argv H.
  assert (Hl : load_file fs_read (filename argv) = Ok EmptyString).
  { unfold load_file. rewrite H. reflexivity. }
  repeat split; [exact Hl|].
  unfold startup. rewrite Hl. destruct (make_lexer _ _ _); reflexivity.
Qed.

Lemma load_missing_file_starts_empty_newfile :
  no_files (filename ["kobi.py"]) = Raise FileNotFoundError /\
  startup no_files no_language ["kobi.py"] = Ok fresh_editor.
Proof.
  split; [reflexivity|].
  exact (proj1 (proj2 (load_missing_file_starts_empty
                         no_files no_language ["kobi.py"] eq_refl))).
Defined.

(** ** Prompts that are left without a usable answer *)

(** From the prompt on, a handler whose prompt ends without a usable answer
    changes nothing; only an empty find query and an answer that fails
    [isdigit] end normally, the others end with the exception raised. *)
Lemma unanswered_call :
  forall (k : Key) (ed : Editor),
    unanswered k = true ->
    exists o,
      call k ed = (ed, o) /\
      (forall term, k = CtrlF (Ok term) -> o = Done) /\
      (forall line_str, k = CtrlG (Ok line_str) -> isdigit line_str = false -> o = Done).
Proof.
  intros k ed H. destruct k; try discriminate; cbn [call unanswered] in *.
  - destruct answer as [term|e].
    + apply String.eqb_eq in H. subst term. exists Done.
      repeat split; intros; reflexivity.
    + exists (Raised e). repeat split; intros; discriminate.
  - destruct answer as [line_str|e].
    + unfold on_goto. destruct (isdigit line_str) eqn:Hd.
      * cbn [negb orb] in H. destruct (int line_str) as [n|e]; [discriminate|].
        exists (Raised e). repeat split; intros; try discriminate.
        match goal with
        | Hk : CtrlG _ = CtrlG _ |- _ => inversion Hk; subst; congruence
        end.
      * exists Done. repeat split; intros; reflexivity.
    + exists (Raised e). repeat split; intros; discriminate.
Qed.

(** C7, as the code has it.  A find or go-to-line prompt that is aborted
    (its [input] raises), an empty find query, and a go-to-line answer that
    is not a number leave the text, the cursor and the selection as they
    were, and from the prompt on the handler changes nothing at all; the
    empty query ends normally.  The history is touched by the key press that
    opens the prompt: before the handler runs, the key processor saves the
    text and the cursor on the undo stack and empties the redo stack. *)
Theorem prompt_without_answer_keeps_text_and_cursor :
  forall (k : Key) (ed : Editor),
    unanswered k = true ->
    fst (call k ed) = ed /\
    text (ed_buffer (fst (press k ed))) = text (ed_buffer ed) /\
    cursor_position (ed_buffer (fst (press k ed))) = cursor_position (ed_buffer ed) /\
    selection_state (ed_buffer (fst (press k ed))) = selection_state (ed_buffer ed) /\
    (ed_exited ed = false ->
     ed_buffer (fst (press k ed)) = save_to_undo_stack true (ed_buffer ed) /\
     redo_stack (ed_buffer (fst (press k ed))) = []) /\
    (forall term, k = CtrlF (Ok term) -> snd (press k ed) = Done).
Proof.
  intros k ed H.
  destruct (unanswered_call k ed H) as [o [Hc _]].
  split; [rewrite Hc; reflexivity|].
  unfold press. destruct (ed_exited ed) eqn:Hx.
  - repeat split; intros; discriminate.
  - assert (Hb : exists h, binding_of k ed = Some h)
      by (destruct k; try discriminate; eexists; reflexivity).
    destruct Hb as [h Hb]. rewrite Hb. unfold save_before.
    destruct (unanswered_call k (with_buffer (save_to_undo_stack true (ed_buffer ed)) ed) H)
      as [o1 [Hc1 [Hf1 _]]].
    rewrite Hc1.
    destruct o1 as [|e]; cbn [fst snd with_previous_handler with_buffer ed_buffer
                              save_to_undo_stack text cursor_position selection_state
                              redo_stack];
      repeat split; intros; try reflexivity.
    specialize (Hf1 _ ltac:(eassumption)). discriminate.
Qed.

Lemma prompt_without_answer_keeps_text_and_cursor_aborted :
  unanswered (CtrlG (Raise EOFError)) = true /\
  unanswered (CtrlG (Ok "abc")) = true /\
  text (ed_buffer (fst (press (CtrlG (Raise EOFError)) hello_undone))) = "hello" /\
  cursor_position (ed_buffer (fst (press (CtrlG (Ok "abc")) hello_undone))) = 2%nat.
Proof.
  split; [reflexivity|]. split; [reflexivity|]. split.
  - exact (proj1 (proj2 (prompt_without_answer_keeps_text_and_cursor
                           (CtrlG (Raise EOFError)) hello_undone eq_refl))).
  - exact (proj1 (proj2 (proj2 (prompt_without_answer_keeps_text_and_cursor
                                  (CtrlG (Ok "abc")) hello_undone eq_refl)))).
Defined.

(** C7 as stated fails: the history does not stay as it was.  After a paste
    and an undo the redo stack holds the pasted text; opening the go-to-line
    prompt and aborting it, or opening the find prompt and giving an empty
    query, leaves the redo stack empty and one more snapshot on the undo
    stack. *)
Lemma aborted_prompt_changes_the_history :
  undo_stack (ed_buffer hello_undone) = [("h", 1%nat)] /\
  redo_stack (ed_buffer hello_undone) = [("hezzllo", 4%nat)] /\
  undo_stack (ed_buffer (fst (press (CtrlG (Raise EOFError)) hello_undone)))
  = [("hello", 2%nat); ("h", 1%nat)] /\
  redo_stack (ed_buffer (fst (press (CtrlG (Raise EOFError)) hello_undone))) = [] /\
  undo_stack (ed_buffer (fst (press (CtrlF (Ok EmptyString)) hello_undone)))
  = [("hello", 2%nat); ("h", 1%nat)] /\
  redo_stack (ed_buffer (fst (press (CtrlF (Ok EmptyString)) hello_undone))) = [] /\
  redo_stack (ed_buffer (fst (press (CtrlG (Raise EOFError)) hello_undone)))
  <> redo_stack (ed_buffer hello_undone) /\
  undo_stack (ed_buffer (fst (press (CtrlG (Raise EOFError)) hello_undone)))
  <> undo_stack (ed_buffer hello_undone).
Proof.
  repeat split; try reflexivity; vm_compute; discriminate.
Qed.

(** ** Lexer lookup *)

(** C8.  When the lexer library recognises no language, [make_lexer] returns
    [None] and raises nothing, and the text area, given no lexer, shows every
    line as one fragment without style. *)
Theorem unknown_language_is_plain_text :
  forall (guess : string -> string -> result string)
         (pygments_lex : string -> Document -> nat -> fragments)
         (name content : string),
    guess name content = Raise ClassNotFound ->
    make_lexer guess name content = Ok None /\
    forall lexer, make_lexer guess name content = Ok lexer ->
      forall (d : Document) (lineno : nat),
        dynamic_lex pygments_lex lexer d lineno
        = match nth_error (lines d) lineno with
          | Some l => [(EmptyString, l)]
          | None => []
          end.
Proof.
  intros guess pyg name content H.
  assert (Hm : make_lexer guess name content = Ok None).
  { unfold make_lexer. rewrite H. reflexivity. }
  split; [exact Hm|].
  intros lexer Hl d lineno. rewrite Hm in Hl. inversion Hl; subst. reflexivity.
Qed.

Lemma unknown_language_is_plain_text_notes :
  no_language "notes.xyz" "foo bar foo" = Raise ClassNotFound /\
  make_lexer no_language "notes.xyz" "foo bar foo" = Ok None.
Proof.
  split; [reflexivity|].
  exact (proj1 (unknown_language_is_plain_text
                  no_language (fun _ _ _ => []) "notes.xyz" "foo bar foo" eq_refl)).
Defined.

(** ** Pasting an empty clipboard (Ctrl+V) *)

(** C10.  With no clipboard data, or data whose text is empty, the paste
    handler changes nothing; through the key processor too the buffer text
    and the cursor are as before. *)
Theorem paste_of_nothing_changes_nothing :
  forall ed : Editor,
    (forall data, ed_clipboard ed = Some data -> clip_text data = EmptyString) ->
    on_paste ed = (ed, Done) /\
    text (ed_buffer (fst (press CtrlV ed))) = text (ed_buffer ed) /\
    cursor_position (ed_buffer (fst (press CtrlV ed))) = cursor_position (ed_buffer ed).
Proof.
  intros ed H.
  assert (Hp : forall e, ed_clipboard e = ed_clipboard ed -> on_paste e = (e, Done)).
  { intros e He. unfold on_paste. rewrite He.
    destruct (ed_clipboard ed) as [data|]; [|reflexivity].
    rewrite (H data eq_refl). reflexivity. }
  split; [apply Hp; reflexivity|].
  unfold press. destruct (ed_exited ed); [split; reflexivity|].
  simpl. rewrite Hp by reflexivity. simpl. split; reflexivity.
Qed.

Lemma paste_of_nothing_changes_nothing_fresh :
  on_paste foo_bar_foo = (foo_bar_foo, Done).
Proof.
  refine (proj1 (paste_of_nothing_changes_nothing foo_bar_foo _)).
  intros data H. inversion H. reflexivity.
Defined.

(** ** The file name *)

Ltac break_match :=
  match goal with
  | |- context [match ?x with _ => _ end] => destruct x eqn:?
  end.

Lemma call_keeps_filename :
  forall k ed, ed_filename (fst (call k ed)) = ed_filename ed.
Proof.
  intros k ed.
  destruct k; cbn [call];
    unfold on_save, save_file, on_quit, on_find, on_goto, on_copy, on_cut,
           on_paste, on_undo, on_redo, self_insert, newline_handler,
           backward_delete_char;
    try (destruct (fs_fault fs); reflexivity);
    repeat break_match; reflexivity.
Qed.

Lemma press_keeps_filename :
  forall k ed, ed_filename (fst (press k ed)) = ed_filename ed.
Proof.
  intros k ed. unfold press.
  destruct (ed_exited ed); [reflexivity|].
  destruct (binding_of k ed) as [h|]; [|reflexivity].
  unfold save_before.
  match goal with
  | |- context [call k ?e] =>
      pose proof (call_keeps_filename k e) as H; destruct (call k e) as [ed2 o]
  end.
  simpl in H. destruct o; simpl; rewrite H; reflexivity.
Qed.

Lemma run_keeps_filename :
  forall ks ed, ed_filename (run ks ed) = ed_filename ed.
Proof.
  induction ks as [|k ks IH]; intro ed; [reflexivity|].
  unfold run in *. simpl. rewrite IH. apply press_keeps_filename.
Qed.

(** C9.  Started without a command-line argument, the program works on
    "newfile.txt": that is the file it loads, the file every later save
    writes, and the name at the head of the status bar. *)
Theorem default_file_name :
  forall (fs_read : string -> result string)
         (guess : string -> string -> result string) (argv : list string),
    (List.length argv <= 1)%nat ->
    filename argv = "newfile.txt" /\
    startup fs_read guess argv
    = match load_file fs_read "newfile.txt" with
      | Raise e => Raise e
      | Ok content =>
          match make_lexer guess "newfile.txt" content with
          | Raise e => Raise e
          | Ok lexer =>
              Ok (mkEditor "newfile.txt" lexer (new_buffer content) EmptyString
                           (Some (mkClipboardData EmptyString)) None false)
          end
      end /\
    forall ed, startup fs_read guess argv = Ok ed ->
      forall ks : list Key,
        ed_filename (run ks ed) = "newfile.txt" /\
        (forall fs_write,
            on_save fs_write (run ks ed) = save_file fs_write "newfile.txt" (run ks ed)) /\
        exists rest, get_statusbar_text (run ks ed) = " newfile.txt | Ln " ++ rest.
Proof.
  intros fs_read guess argv Hlen.
  assert (Hf : filename argv = "newfile.txt").
  { unfold filename. destruct (Nat.ltb_spec 1 (List.length argv)); [lia|reflexivity]. }
  split; [exact Hf|]. split; [unfold startup; rewrite Hf; reflexivity|].
  intros ed Hs ks.
  assert (Hn : ed_filename ed = "newfile.txt").
  { unfold startup in Hs. rewrite Hf in Hs.
    destruct (load_file fs_read "newfile.txt"); [|discriminate].
    destruct (make_lexer guess "newfile.txt" a); [|discriminate].
    inversion Hs. reflexivity. }
  assert (Hr : ed_filename (run ks ed) = "newfile.txt")
    by (rewrite run_keeps_filename; exact Hn).
  split; [exact Hr|]. split.
  - intro fs_write. unfold on_save. rewrite Hr. reflexivity.
  - unfold get_statusbar_text. rewrite Hr. simpl. eexists. reflexivity.
Qed.

Lemma default_file_name_no_argument :
  (List.length ["kobi.py"] <= 1)%nat /\
  filename ["kobi.py"] = "newfile.txt" /\
  get_statusbar_text fresh_editor = " newfile.txt | Ln 1, Col 1  ".
Proof.
  split; [simpl; lia|]. split.
  - exact (proj1 (default_file_name no_files no_language ["kobi.py"] (le_n 1))).
  - reflexivity.
Defined.

(** ** Go to line (Ctrl+G) *)

Lemma all_decimal_all_digit :
  forall s, all_chars is_decimal s = true -> all_chars is_digit s = true.
Proof.
  induction s as [|c s IH]; cbn [all_chars]; intro H; [reflexivity|].
  apply andb_true_iff in H. destruct H as [Hc Hs].
  rewrite (IH Hs). unfold is_digit. cbv zeta. rewrite Hc. reflexivity.
Qed.

Lemma int_ok_isdigit :
  forall s n, int s = Ok n -> isdigit s = true.
Proof.
  intros s n H. destruct s as [|c s]; [discriminate|].
  unfold int in H. unfold isdigit.
  destruct (all_chars is_decimal (String c s)) eqn:E; [|discriminate].
  apply all_decimal_all_digit. exact E.
Qed.

Lemma split_lines_not_nil : forall s, split_lines s <> [].
Proof.
  destruct s as [|c s]; simpl; [discriminate|].
  destruct (Ascii.eqb c newline); [discriminate|].
  destruct (split_lines s); discriminate.
Qed.

Lemma cumulative_length :
  forall ls pos, List.length (cumulative pos ls) = List.length ls.
Proof.
  induction ls as [|l ls IH]; intro pos; simpl; [reflexivity|].
  rewrite IH. reflexivity.
Qed.

Lemma removelast_cons_length :
  forall (A : Type) (l : list A) (x : A),
    List.length (removelast (x :: l)) = List.length l.
Proof.
  induction l as [|y l IH]; intro x; [reflexivity|].
  change (removelast (x :: y :: l)) with (x :: removelast (y :: l)).
  cbn [List.length]. rewrite (IH y). reflexivity.
Qed.

Lemma line_start_indexes_length :
  forall d, List.length (line_start_indexes d) = List.length (lines d).
Proof.
  intro d. unfold line_start_indexes.
  pose proof (split_lines_not_nil (doc_text d)) as Hne. fold (lines d) in Hne.
  assert (Hlen : (1 <? List.length (0%nat :: cumulative 0 (lines d)))%nat = true).
  { cbn [List.length]. rewrite cumulative_length.
    destruct (lines d); [congruence|reflexivity]. }
  rewrite Hlen, removelast_cons_length. apply cumulative_length.
Qed.

Lemma total_split_lines :
  forall s, total (split_lines s) = (String.length s + 1)%nat.
Proof.
  induction s as [|c s IH]; simpl; [reflexivity|].
  destruct (Ascii.eqb c newline).
  - simpl. rewrite IH. lia.
  - destruct (split_lines s) as [|l ls] eqn:E.
    + exfalso. exact (split_lines_not_nil s E).
    + simpl in *. lia.
Qed.

Lemma last_start_of_prefix_sums :
  forall ls pos,
    ls <> [] ->
    (last (removelast (pos :: cumulative pos ls)) 0
     + (String.length (last ls EmptyString) + 1) = pos + total ls)%nat.
Proof.
  induction ls as [|l ls IH]; intros pos Hne; [congruence|].
  destruct ls as [|l' ls'].
  - simpl. lia.
  - specialize (IH (pos + (String.length l + 1))%nat ltac:(discriminate)).
    change (cumulative pos (l :: l' :: ls'))
      with ((pos + (String.length l + 1))%nat
              :: cumulative (pos + (String.length l + 1)) (l' :: ls')).
    remember (pos + (String.length l + 1))%nat as pos'.
    remember (cumulative pos' (l' :: ls')) as rest.
    assert (Hr : rest <> []) by (subst rest; simpl; discriminate).
    change (last (l :: l' :: ls') EmptyString) with (last (l' :: ls') EmptyString).
    change (total (l :: l' :: ls')) with (String.length l + 1 + total (l' :: ls'))%nat.
    destruct rest as [|r0 rest']; [congruence|].
    change (removelast (pos :: pos' :: r0 :: rest'))
      with (pos :: removelast (pos' :: r0 :: rest')).
    change (removelast (pos' :: r0 :: rest'))
      with (pos' :: removelast (r0 :: rest')) in *.
    change (last (pos :: pos' :: removelast (r0 :: rest')) 0%nat)
      with (last (pos' :: removelast (r0 :: rest')) 0%nat).
    lia.
Qed.

(** The last line starts where the text ends minus that line. *)
Lemma last_line_start :
  forall d,
    (last (line_start_indexes d) 0 + String.length (last (lines d) EmptyString)
     = String.length (doc_text d))%nat.
Proof.
  intro d. unfold line_start_indexes.
  pose proof (split_lines_not_nil (doc_text d)) as Hne.
  pose proof (last_start_of_prefix_sums (lines d) 0 Hne) as H.
  pose proof (total_split_lines (doc_text d)) as Ht.
  fold (lines d) in Ht.
  assert (Hlen : (1 <? List.length (0%nat :: cumulative 0 (lines d)))%nat = true).
  { cbn [List.length]. rewrite cumulative_length. unfold lines.
    destruct (split_lines (doc_text d)); [congruence|reflexivity]. }
  rewrite Hlen. lia.
Qed.

Lemma index_beyond_end :
  forall (A : Type) (l : list A) (i : Z),
    (Z.of_nat (List.length l) <= i)%Z -> index l i = None.
Proof.
  intros A l i H. unfold index.
  destruct (Z.ltb_spec i (Z.of_nat (List.length l))); [lia|].
  rewrite andb_false_r.
  destruct (Z.ltb_spec i 0); [lia|]. rewrite andb_false_r. reflexivity.
Qed.

Lemma translate_beyond_last_row :
  forall d row,
    (Z.of_nat (List.length (lines d)) <= row)%Z ->
    translate_row_col_to_index d row 0 = Z.of_nat (last (line_start_indexes d) 0%nat).
Proof.
  intros d row H. unfold translate_row_col_to_index.
  rewrite index_beyond_end by (rewrite line_start_indexes_length; exact H).
  destruct (Z.ltb_spec row 0); [lia|].
  pose proof (last_line_start d) as Hl. unfold len. lia.
Qed.

Lemma set_cursor_position_inside :
  forall (b : Buffer) (n : nat),
    (n <= String.length (text b))%nat ->
    set_cursor_position (Z.of_nat n) b
    = mkBuffer (text b) n (selection_state b) (undo_stack b) (redo_stack b).
Proof.
  intros b n H. unfold set_cursor_position, len.
  destruct (Z.ltb_spec (Z.of_nat (String.length (text b))) (Z.of_nat n)); [lia|].
  destruct (Z.ltb_spec (Z.of_nat n) 0); [lia|].
  rewrite Z.max_r by lia. rewrite Nat2Z.id. reflexivity.
Qed.

(** C1, as the code has it.  A line number beyond the last line, in an
    answer [int] takes (decimal digits, no more than 4300 of them), is no
    error: the handler ends normally, the cursor is put at the start of the
    last line, the status reads " [Line n]" and the text is as before. *)
Theorem goto_beyond_end_goes_to_last_line :
  forall (ed : Editor) (line_str : string) (n : Z),
    int line_str = Ok n ->
    (Z.of_nat (List.length (lines (document (ed_buffer ed)))) < n)%Z ->
    exists ed',
      on_goto (Ok line_str) ed = (ed', Done) /\
      text (ed_buffer ed') = text (ed_buffer ed) /\
      cursor_position (ed_buffer ed')
      = last (line_start_indexes (document (ed_buffer ed))) 0%nat /\
      (cursor_position (ed_buffer ed')
       + String.length (last (lines (document (ed_buffer ed))) EmptyString)
       = String.length (text (ed_buffer ed)))%nat /\
      ed_message ed' = " [Line " ++ str n ++ "]".
Proof.
  intros ed line_str n Hint Hn.
  pose proof (last_line_start (document (ed_buffer ed))) as Hl.
  cbn [doc_text document] in Hl.
  unfold on_goto. rewrite (int_ok_isdigit _ _ Hint), Hint.
  rewrite translate_beyond_last_row by lia.
  rewrite set_cursor_position_inside by lia.
  eexists. split; [reflexivity|].
  cbn [with_message with_buffer ed_buffer ed_message text cursor_position].
  repeat split.
  - exact Hl.
  - replace (n - 1 + 1)%Z with n by lia. reflexivity.
Qed.

Lemma goto_beyond_end_goes_to_last_line_1000 :
  int "1000" = Ok 1000%Z /\
  (Z.of_nat (List.length (lines (document (ed_buffer ten_lines)))) < 1000)%Z /\
  exists ed',
    on_goto (Ok "1000") ten_lines = (ed', Done) /\
    cursor_position (ed_buffer ed') = 18%nat /\
    ed_message ed' = " [Line 1000]".
Proof.
  assert (H1 : int "1000" = Ok 1000%Z) by reflexivity.
  assert (H2 : (Z.of_nat (List.length (lines (document (ed_buffer ten_lines)))) < 1000)%Z)
    by (vm_compute; reflexivity).
  split; [exact H1|]. split; [exact H2|].
  destruct (goto_beyond_end_goes_to_last_line ten_lines "1000" 1000%Z H1 H2)
    as [ed' [Hg [_ [Hc [_ Hm]]]]].
  exists ed'. split; [exact Hg|]. split; [|exact Hm].
  rewrite Hc. reflexivity.
Defined.

(** C1 as stated fails: go to line 1000 on a document of 10 lines ends
    normally, not with an error, and moves the cursor from offset 0 to
    offset 18, the start of line 10. *)
Lemma goto_1000_on_ten_lines_moves :
  List.length (lines (document (ed_buffer ten_lines))) = 10%nat /\
  cursor_position (ed_buffer ten_lines) = 0%nat /\
  snd (on_goto (Ok "1000") ten_lines) = Done /\
  cursor_position (ed_buffer (fst (on_goto (Ok "1000") ten_lines))) = 18%nat /\
  ~ ((exists e, snd (on_goto (Ok "1000") ten_lines) = Raised e) /\
     cursor_position (ed_buffer (fst (on_goto (Ok "1000") ten_lines)))
     = cursor_position (ed_buffer ten_lines)).
Proof.
  repeat split; try reflexivity.
  intros [_ H]. vm_compute in H. discriminate.
Qed.

(** Two corners of the same handler.  Line 0 is row -1, which Python reads
    as the last row; a superscript digit passes [isdigit] and is refused by
    [int]. *)
Example goto_line_0_is_the_last_line :
  on_goto (Ok "0") ten_lines
  = (with_message " [Line 0]" (fst (on_goto (Ok "10") ten_lines)), Done) /\
  cursor_position (ed_buffer (fst (on_goto (Ok "0") ten_lines))) = 18%nat.
Proof. split; reflexivity. Qed.

Example goto_superscript_two :
  isdigit (String (ascii_of_nat 178) EmptyString) = true /\
  on_goto (Ok (String (ascii_of_nat 178) EmptyString)) ten_lines
  = (ten_lines, Raised ValueError).
Proof. split; reflexivity. Qed.

(** ** The buffer invariant holds throughout a session *)

Lemma new_document_inside :
  forall t p d,
    new_document t p = Ok d ->
    doc_text d = t /\ doc_cursor_position d = p /\ (p <= String.length t)%nat.
Proof.
  intros t p d H. unfold new_document in H.
  destruct (Nat.ltb_spec (String.length t) p); [discriminate|].
  inversion H; subst. simpl. auto.
Qed.

Lemma set_cursor_position_keeps_inside :
  forall v b,
    (cursor_position (set_cursor_position v b)
     <= String.length (text (set_cursor_position v b)))%nat.
Proof.
  intros v b. unfold set_cursor_position, len. cbn [cursor_position text].
  destruct (Z.ltb_spec (Z.of_nat (String.length (text b))) v);
    match goal with
    | |- context [(?x <? 0)%Z] => destruct (Z.ltb_spec x 0)
    end; lia.
Qed.

Lemma insert_text_keeps_inside :
  forall d b,
    (cursor_position b <= String.length (text b))%nat ->
    (cursor_position (fst (insert_text d b))
     <= String.length (text (fst (insert_text d b))))%nat.
Proof.
  intros d b H. unfold insert_text.
  destruct (new_document _ _) as [doc|e] eqn:E; [|exact H].
  apply new_document_inside in E. destruct E as [Et [Ec Hle]].
  unfold set_document. cbn [fst cursor_position text]. rewrite Et, Ec. exact Hle.
Qed.

Lemma undo_loop_keeps_inside :
  forall S b,
    (cursor_position b <= String.length (text b))%nat ->
    (cursor_position (fst (undo_loop S b))
     <= String.length (text (fst (undo_loop S b))))%nat.
Proof.
  induction S as [|[t p] S IH]; intros b H; cbn [undo_loop]; [exact H|].
  destruct (String.eqb t (text b)); [apply IH; exact H|].
  destruct (new_document t p) as [doc|e] eqn:E; [|exact H].
  apply new_document_inside in E. destruct E as [Et [Ec Hle]].
  unfold set_document. cbn [fst cursor_position text]. rewrite Et, Ec. exact Hle.
Qed.

Lemma redo_keeps_inside :
  forall b,
    (cursor_position b <= String.length (text b))%nat ->
    (cursor_position (fst (redo b)) <= String.length (text (fst (redo b))))%nat.
Proof.
  intros b H. unfold redo.
  destruct (redo_stack b) as [|s r] eqn:Er; [exact H|].
  destruct (redo_stack (save_to_undo_stack false b)) as [|[t p] rest]; [exact H|].
  destruct (new_document t p) as [doc|e] eqn:E; [|exact H].
  apply new_document_inside in E. destruct E as [Et [Ec Hle]].
  unfold set_document. cbn [fst cursor_position text doc_text]. rewrite Et, Ec. exact Hle.
Qed.

Lemma delete_before_cursor_keeps_inside :
  forall b,
    (cursor_position b <= String.length (text b))%nat ->
    (cursor_position (fst (delete_before_cursor b))
     <= String.length (text (fst (delete_before_cursor b))))%nat.
Proof.
  intros b H. unfold delete_before_cursor.
  destruct (0 <? cursor_position b)%nat; [|exact H].
  destruct (new_document _ _) as [doc|e] eqn:E; [|exact H].
  apply new_document_inside in E. destruct E as [Et [Ec Hle]].
  unfold set_document. cbn [fst cursor_position text]. rewrite Et, Ec. exact Hle.
Qed.

Lemma call_keeps_valid :
  forall k ed, valid ed -> valid (fst (call k ed)).
Proof.
  intros k ed H. unfold valid in *.
  destruct k; cbn [call].
  - unfold on_save, save_file. destruct (fs_fault fs); exact H.
  - exact H.
  - unfold on_find. repeat break_match; exact H.
  - unfold on_goto. repeat break_match; try exact H.
    apply set_cursor_position_keeps_inside.
  - unfold on_copy. break_match; exact H.
  - unfold on_cut. break_match; exact H.
  - unfold on_paste.
    destruct (ed_clipboard ed) as [data|]; [|exact H].
    destruct (clip_text data) as [|c0 d0]; [exact H|].
    pose proof (insert_text_keeps_inside (String c0 d0) (ed_buffer ed) H) as Hi.
    destruct (insert_text (String c0 d0) (ed_buffer ed)) as [b [|e]]; exact Hi.
  - unfold on_undo, undo.
    pose proof (undo_loop_keeps_inside (undo_stack (ed_buffer ed)) (ed_buffer ed) H) as Hu.
    destruct (undo_loop (undo_stack (ed_buffer ed)) (ed_buffer ed)) as [b [|e]]; exact Hu.
  - unfold on_redo.
    pose proof (redo_keeps_inside (ed_buffer ed) H) as Hr.
    destruct (redo (ed_buffer ed)) as [b [|e]]; exact Hr.
  - unfold self_insert.
    pose proof (insert_text_keeps_inside (String (pr_char c) EmptyString) (ed_buffer ed) H)
      as Hi.
    destruct (insert_text (String (pr_char c) EmptyString) (ed_buffer ed)) as [b o];
      exact Hi.
  - destruct (selection_state (ed_buffer ed)); [exact H|].
    unfold newline_handler, buffer_newline.
    match goal with
    | |- context [insert_text ?d ?b] =>
        pose proof (insert_text_keeps_inside d b H) as Hi;
        destruct (insert_text d b) as [b' o]; exact Hi
    end.
  - destruct (selection_state (ed_buffer ed)); [exact H|].
    unfold backward_delete_char.
    pose proof (delete_before_cursor_keeps_inside (ed_buffer ed) H) as Hd.
    destruct (delete_before_cursor (ed_buffer ed)) as [b o]; exact Hd.
Qed.

Lemma press_keeps_valid :
  forall k ed, valid ed -> valid (fst (press k ed)).
Proof.
  intros k ed H. unfold press.
  destruct (ed_exited ed); [exact H|].
  destruct (binding_of k ed) as [h|]; [|exact H].
  unfold save_before.
  match goal with
  | |- context [call k ?e] =>
      assert (Hv : valid e) by exact H;
      pose proof (call_keeps_valid k e Hv) as Hc; destruct (call k e) as [ed2 [|x]]
  end; exact Hc.
Qed.

(** Every state a session reaches has its cursor inside the text. *)
Lemma run_keeps_valid :
  forall ks ed, valid ed -> valid (run ks ed).
Proof.
  induction ks as [|k ks IH]; intros ed H; [exact H|].
  unfold run in *. cbn [fold_left]. apply IH. apply press_keeps_valid. exact H.
Qed.

Lemma startup_valid :
  forall fs_read guess argv ed,
    startup fs_read guess argv = Ok ed -> valid ed.
Proof.
  intros fs_read guess argv ed H. unfold startup in H.
  destruct (load_file fs_read (filename argv)); [|discriminate].
  destruct (make_lexer guess (filename argv) a); [|discriminate].
  inversion H. unfold valid. simpl. lia.
Qed.

(** ** Undo (Ctrl+Z) *)

Lemma length_append :
  forall a b, String.length (a ++ b) = (String.length a + String.length b)%nat.
Proof.
  induction a as [|c a IH]; intro b; simpl; [reflexivity|].
  rewrite IH. reflexivity.
Qed.

Lemma length_take_drop :
  forall n s, (String.length (take n s) + String.length (drop n s))%nat = String.length s.
Proof.
  induction n as [|n IH]; intro s; [reflexivity|].
  destruct s as [|c s]; [reflexivity|]. simpl. rewrite IH. reflexivity.
Qed.

Lemma insert_text_inside :
  forall (d : string) (b : Buffer),
    (cursor_position b <= String.length (text b))%nat ->
    d <> EmptyString ->
    exists t',
      insert_text d b
      = (mkBuffer t' (cursor_position b + String.length d) None
                  (undo_stack b) (redo_stack b), Done) /\
      String.length t' = (String.length (text b) + String.length d)%nat.
Proof.
  intros d b Hv Hd. unfold insert_text, new_document.
  set (t' := take (cursor_position b) (text b) ++ d ++ drop (cursor_position b) (text b)).
  assert (Hlen : String.length t' = (String.length (text b) + String.length d)%nat).
  { unfold t'. rewrite !length_append.
    pose proof (length_take_drop (cursor_position b) (text b)). lia. }
  exists t'. split; [|exact Hlen].
  destruct (Nat.ltb_spec (String.length t') (cursor_position b + String.length d)); [lia|].
  unfold set_document. cbn [doc_text doc_cursor_position].
  assert (Hne : String.eqb t' (text b) = false).
  { apply String.eqb_neq. intro E. rewrite E in Hlen.
    destruct d; [congruence|simpl in Hlen; lia]. }
  rewrite Hne. reflexivity.
Qed.

Lemma length_drop :
  forall n s, String.length (drop n s) = (String.length s - n)%nat.
Proof.
  induction n as [|n IH]; intro s; [simpl; lia|].
  destruct s as [|c s]; [reflexivity|]. simpl. apply IH.
Qed.

Lemma length_take :
  forall n s, String.length (take n s) = Nat.min n (String.length s).
Proof.
  induction n as [|n IH]; intro s; [reflexivity|].
  destruct s as [|c s]; [reflexivity|]. simpl. rewrite IH. reflexivity.
Qed.

(** A backspace with text before the cursor takes one character away. *)
Lemma delete_before_cursor_inside :
  forall b : Buffer,
    (0 < cursor_position b)%nat ->
    (cursor_position b <= String.length (text b))%nat ->
    exists t',
      delete_before_cursor b
      = (mkBuffer t' (cursor_position b - 1) None (undo_stack b) (redo_stack b), Done) /\
      S (String.length t') = String.length (text b).
Proof.
  intros b Hpos Hv. unfold delete_before_cursor, slice.
  destruct (Nat.ltb_spec 0 (cursor_position b)); [|lia].
  set (t' := (take (cursor_position b - 1) (text b)
              ++ drop (cursor_position b) (text b))%string).
  assert (Hlen : S (String.length t') = String.length (text b)).
  { unfold t'. rewrite length_append, length_take, length_drop. lia. }
  assert (Hdel : String.length
                   (take (cursor_position b - (cursor_position b - 1))
                         (drop (cursor_position b - 1) (text b))) = 1%nat).
  { rewrite length_take, length_drop. lia. }
  rewrite Hdel. unfold new_document.
  destruct (Nat.ltb_spec (String.length t') (cursor_position b - 1)); [lia|].
  unfold set_document. cbn [doc_text doc_cursor_position].
  assert (Hne : String.eqb t' (text b) = false).
  { apply String.eqb_neq. intro E. rewrite E in Hlen. lia. }
  rewrite Hne. exists t'. split; [reflexivity|exact Hlen].
Qed.

Lemma strip_head_differs :
  forall t S t1 c B, strip t S = (t1, c) :: B -> t1 <> t.
Proof.
  induction S as [|[t' p] S IH]; intros t1 c B H; simpl in H; [discriminate|].
  destruct (String.eqb t' t) eqn:E.
  - eapply IH; eauto.
  - inversion H; subst. apply String.eqb_neq. exact E.
Qed.

Lemma strip_not_headed :
  forall t t1 c B, t1 <> t -> strip t ((t1, c) :: B) = (t1, c) :: B.
Proof.
  intros t t1 c B H. simpl.
  apply String.eqb_neq in H. rewrite H. reflexivity.
Qed.

Lemma save_to_undo_stack_shape :
  forall (clear : bool) (b : Buffer),
    exists B,
      undo_stack (save_to_undo_stack clear b) = (text b, cursor_position b) :: B /\
      strip (text b) B = strip (text b) (undo_stack b).
Proof.
  intros clear b. unfold save_to_undo_stack.
  destruct (undo_stack b) as [|[t p] rest] eqn:E; cbn [undo_stack].
  - exists []. split; reflexivity.
  - destruct (String.eqb t (text b)) eqn:Et.
    + apply String.eqb_eq in Et. subst t. exists rest. split; [reflexivity|].
      simpl. rewrite String.eqb_refl. reflexivity.
    + exists ((t, p) :: rest). split; reflexivity.
Qed.

Lemma undo_loop_restores :
  forall (S : list (string * nat)) (b : Buffer) t c B,
    strip (text b) S = (t, c) :: B ->
    (c <= String.length t)%nat ->
    undo_loop S b
    = (mkBuffer t c None B ((text b, cursor_position b) :: redo_stack b), Done).
Proof.
  induction S as [|[t' p] S IH]; intros b t c B H Hc; simpl in H; [discriminate|].
  cbn [undo_loop]. destruct (String.eqb t' (text b)) eqn:E.
  - apply IH; assumption.
  - inversion H; subst. unfold new_document.
    destruct (Nat.ltb_spec (String.length t) c); [lia|].
    unfold set_document. cbn [doc_text doc_cursor_position text].
    rewrite E. reflexivity.
Qed.

(** An edit (see [own_undo_step]) ends normally, changes the text,
    keeps the buffer invariant, and leaves on top of the undo stack the
    snapshot of the state it was made in. *)
Lemma own_undo_step_press :
  forall (k : Key) (ed : Editor),
    valid ed ->
    own_undo_step k ed = true ->
    exists ed' B,
      press k ed = (ed', Done) /\
      valid ed' /\
      ed_exited ed' = false /\
      text (ed_buffer ed') <> text (ed_buffer ed) /\
      undo_stack (ed_buffer ed')
      = (text (ed_buffer ed), cursor_position (ed_buffer ed)) :: B /\
      strip (text (ed_buffer ed)) B
      = strip (text (ed_buffer ed)) (undo_stack (ed_buffer ed)).
Proof.
  intros k ed Hv Hstep. unfold own_undo_step in Hstep.
  apply andb_true_iff in Hstep. destruct Hstep as [Hx Hk].
  apply negb_true_iff in Hx.
  destruct (save_to_undo_stack_shape true (ed_buffer ed)) as [B [HB Hstrip]].
  assert (Hsaved : forall d, d <> EmptyString ->
            exists t',
              insert_text d (save_to_undo_stack true (ed_buffer ed))
              = (mkBuffer t' (cursor_position (ed_buffer ed) + String.length d) None
                   ((text (ed_buffer ed), cursor_position (ed_buffer ed)) :: B) [], Done)
              /\ String.length t'
                 = (String.length (text (ed_buffer ed)) + String.length d)%nat).
  { intros d Hd.
    destruct (insert_text_inside d (save_to_undo_stack true (ed_buffer ed)) Hv Hd)
      as [t' [Hi Hl]].
    exists t'. rewrite Hi, HB. split; [reflexivity|exact Hl]. }
  assert (Hlen : forall d t', d <> EmptyString ->
            String.length t' = (String.length (text (ed_buffer ed)) + String.length d)%nat ->
            t' <> text (ed_buffer ed)).
  { intros d t' Hd Hl E. rewrite E in Hl. destruct d; [congruence|simpl in Hl; lia]. }
  destruct k; try discriminate.
  - (* paste *)
    destruct (ed_clipboard ed) as [data|] eqn:Hclip; [|discriminate].
    apply negb_true_iff, String.eqb_neq in Hk.
    destruct (clip_text data) as [|c0 d0] eqn:Hd; [congruence|].
    destruct (Hsaved (String c0 d0) Hk) as [t' [Hi Hl]].
    eexists. exists B. unfold press. rewrite Hx.
    cbn [binding_of save_before call]. unfold on_paste.
    cbn [with_buffer ed_clipboard ed_buffer]. rewrite Hclip, Hd.
    rewrite Hi. split; [reflexivity|].
    unfold valid.
    cbn [with_previous_handler with_message with_buffer ed_buffer ed_exited
         text cursor_position undo_stack].
    repeat split; try assumption.
    + unfold valid in Hv. lia.
    + apply (Hlen (String c0 d0)); [discriminate|exact Hl].
  - (* a typed character *)
    destruct (selection_state (ed_buffer ed)) eqn:Hsel; [discriminate|].
    destruct (Hsaved (String (pr_char c) EmptyString) ltac:(discriminate))
      as [t' [Hi Hl]].
    eexists. exists B. unfold press. rewrite Hx.
    cbn [binding_of]. rewrite Hsel. cbn [save_before call].
    unfold self_insert. cbn [with_buffer ed_buffer].
    rewrite Hi. split; [reflexivity|].
    unfold valid.
    cbn [with_previous_handler with_message with_buffer ed_buffer ed_exited
         text cursor_position undo_stack].
    repeat split; try assumption.
    + unfold valid in Hv. cbn [String.length] in *. lia.
    + apply (Hlen (String (pr_char c) EmptyString)); [discriminate|exact Hl].
  - (* a line break *)
    destruct (selection_state (ed_buffer ed)) eqn:Hsel; [discriminate|].
    set (d := String newline
                (leading_whitespace_in_current_line (document (ed_buffer ed)))).
    destruct (Hsaved d ltac:(discriminate)) as [t' [Hi Hl]].
    eexists. exists B. unfold press. rewrite Hx.
    cbn [binding_of]. rewrite Hsel. cbn [save_before call].
    cbn [with_buffer ed_buffer save_to_undo_stack selection_state].
    rewrite Hsel. unfold newline_handler, buffer_newline.
    cbn [with_buffer ed_buffer].
    change (document (save_to_undo_stack true (ed_buffer ed)))
      with (document (ed_buffer ed)).
    fold d. rewrite Hi. split; [reflexivity|].
    unfold valid.
    cbn [with_previous_handler with_message with_buffer ed_buffer ed_exited
         text cursor_position undo_stack].
    repeat split; try assumption.
    + unfold valid in Hv. lia.
    + apply (Hlen d); [discriminate|exact Hl].
  - (* a backspace *)
    destruct (selection_state (ed_buffer ed)) eqn:Hsel; [discriminate|].
    apply Nat.ltb_lt in Hk.
    destruct (delete_before_cursor_inside
                (save_to_undo_stack true (ed_buffer ed)) Hk Hv) as [t' [Hd Hl]].
    eexists. exists B. unfold press. rewrite Hx.
    cbn [binding_of]. rewrite Hsel. cbn [save_before call].
    cbn [with_buffer ed_buffer save_to_undo_stack selection_state].
    rewrite Hsel. unfold backward_delete_char. cbn [with_buffer ed_buffer].
    rewrite Hd, HB. split; [reflexivity|].
    unfold valid.
    cbn [with_previous_handler with_message with_buffer ed_buffer ed_exited
         text cursor_position undo_stack save_to_undo_stack] in *.
    repeat split; try assumption.
    + unfold valid in Hv. lia.
    + intro E. rewrite E in Hl. lia.
Qed.

(** One press of Ctrl+Z puts back the first snapshot below the current text. *)
Lemma undo_press_restores :
  forall (ed : Editor) t c B,
    ed_exited ed = false ->
    strip (text (ed_buffer ed)) (undo_stack (ed_buffer ed)) = (t, c) :: B ->
    (c <= String.length t)%nat ->
    exists ed',
      press CtrlZ ed = (ed', Done) /\
      text (ed_buffer ed') = t /\
      cursor_position (ed_buffer ed') = c /\
      undo_stack (ed_buffer ed') = B /\
      ed_exited ed' = false.
Proof.
  intros ed t c B Hx Hs Hc.
  destruct (save_to_undo_stack_shape true (ed_buffer ed)) as [B1 [HB1 Hstrip]].
  assert (Hu : undo (save_to_undo_stack true (ed_buffer ed))
               = (mkBuffer t c None B
                    ((text (ed_buffer ed), cursor_position (ed_buffer ed)) :: []), Done)).
  { unfold undo. rewrite HB1. cbn [undo_loop].
    change (text (save_to_undo_stack true (ed_buffer ed))) with (text (ed_buffer ed)).
    rewrite String.eqb_refl.
    rewrite (undo_loop_restores B1 (save_to_undo_stack true (ed_buffer ed)) t c B).
    - reflexivity.
    - change (text (save_to_undo_stack true (ed_buffer ed))) with (text (ed_buffer ed)).
      rewrite Hstrip. exact Hs.
    - exact Hc. }
  eexists. unfold press. rewrite Hx.
  cbn [binding_of save_before call]. unfold on_undo.
  cbn [with_buffer ed_buffer]. rewrite Hu.
  split; [reflexivity|].
  cbn [with_previous_handler with_message with_buffer ed_buffer ed_exited
       text cursor_position undo_stack].
  repeat split. exact Hx.
Qed.

Lemma run_app :
  forall ks1 ks2 ed, run (ks1 ++ ks2) ed = run ks2 (run ks1 ed).
Proof. intros. unfold run. apply fold_left_app. Qed.

Lemma repeat_snoc :
  forall (A : Type) (x : A) n, repeat x (S n) = (repeat x n ++ [x])%list.
Proof.
  induction n as [|n IH]; [reflexivity|].
  change (repeat x (S (S n))) with (x :: repeat x (S n)).
  rewrite IH at 1. reflexivity.
Qed.

(** The state after as many undos as there were steps, with what is left of
    the undo stack. *)
Lemma undo_unwinds_own_steps :
  forall (ks : list Key) (ed : Editor),
    valid ed ->
    own_undo_steps ks ed = true ->
    let ed' := run (ks ++ repeat CtrlZ (List.length ks)) ed in
    text (ed_buffer ed') = text (ed_buffer ed) /\
    cursor_position (ed_buffer ed') = cursor_position (ed_buffer ed) /\
    strip (text (ed_buffer ed)) (undo_stack (ed_buffer ed'))
    = strip (text (ed_buffer ed)) (undo_stack (ed_buffer ed)) /\
    ed_exited ed' = ed_exited ed.
Proof.
  induction ks as [|k ks IH]; intros ed Hv Hsteps.
  - simpl. repeat split.
  - cbn [own_undo_steps] in Hsteps. apply andb_true_iff in Hsteps.
    destruct Hsteps as [Hk Hrest].
    assert (Hx : ed_exited ed = false).
    { unfold own_undo_step in Hk. apply andb_true_iff in Hk.
      destruct Hk as [Hk _]. apply negb_true_iff in Hk. exact Hk. }
    destruct (own_undo_step_press k ed Hv Hk)
      as [ed1 [B [Hp [Hv1 [Hx1 [Hne [Hstack HB]]]]]]].
    rewrite Hp in Hrest. cbn [fst] in Hrest.
    specialize (IH ed1 Hv1 Hrest). cbv zeta in IH.
    destruct IH as [It [Ic [Is Ix]]].
    cbv zeta. cbn [List.length]. rewrite repeat_snoc.
    change ((k :: ks) ++ repeat CtrlZ (List.length ks) ++ [CtrlZ])%list
      with ([k] ++ (ks ++ repeat CtrlZ (List.length ks) ++ [CtrlZ]))%list.
    rewrite run_app. rewrite app_assoc, run_app.
    assert (Hr1 : run [k] ed = ed1) by (unfold run; simpl; rewrite Hp; reflexivity).
    rewrite Hr1.
    set (f1 := run (ks ++ repeat CtrlZ (List.length ks)) ed1) in *.
    assert (Hs1 : strip (text (ed_buffer f1)) (undo_stack (ed_buffer f1))
                  = (text (ed_buffer ed), cursor_position (ed_buffer ed)) :: B).
    { rewrite It, Is, Hstack. apply strip_not_headed. congruence. }
    destruct (undo_press_restores f1 _ _ _ (eq_trans Ix Hx1) Hs1 Hv)
      as [f [Hf [Ft [Fc [Fs Fx]]]]].
    assert (Hr2 : run [CtrlZ] f1 = f) by (unfold run; simpl; rewrite Hf; reflexivity).
    rewrite Hr2, Ft, Fc, Fs, Fx, Hx. repeat split. exact HB.
Qed.

(** C3.  After any sequence of edits (inserts: typed characters and pastes of
    non-empty text; deletes: backspaces with text before the cursor), as
    many presses of Ctrl+Z as there were edits give back the text and the
    cursor position from before the sequence: each edit is an undo step of
    its own, and undo is its inverse. *)
Theorem undo_restores_own_steps :
  forall (ks : list Key) (ed : Editor),
    valid ed ->
    own_undo_steps ks ed = true ->
    text (ed_buffer (run (ks ++ repeat CtrlZ (List.length ks)) ed))
    = text (ed_buffer ed) /\
    cursor_position (ed_buffer (run (ks ++ repeat CtrlZ (List.length ks)) ed))
    = cursor_position (ed_buffer ed).
Proof.
  intros ks ed Hv Hs.
  destruct (undo_unwinds_own_steps ks ed Hv Hs) as [Ht [Hc _]].
  split; assumption.
Qed.

Lemma undo_restores_own_steps_hello :
  valid hello /\
  own_undo_steps edits_of_hello hello = true /\
  text (ed_buffer (run edits_of_hello hello)) = "hea" ++ nl ++ "zbllo" /\
  text (ed_buffer (run (edits_of_hello ++ repeat CtrlZ 5) hello)) = "hello" /\
  cursor_position (ed_buffer (run (edits_of_hello ++ repeat CtrlZ 5) hello)) = 2%nat.
Proof.
  assert (Hv : valid hello) by (unfold valid; simpl; lia).
  assert (Hs : own_undo_steps edits_of_hello hello = true) by reflexivity.
  split; [exact Hv|]. split; [exact Hs|]. split; [reflexivity|].
  exact (undo_restores_own_steps edits_of_hello hello Hv Hs).
Defined.

(** Two characters typed one after the other are two undo steps: with "x" in
    the buffer, "a", "b" and two presses of Ctrl+Z end on "x" with the cursor
    behind it. *)
Example two_typed_characters_two_undos :
  let ed := run (typed (printables "x")) fresh_editor in
  text (ed_buffer ed) = "x" /\
  text (ed_buffer (run (typed (printables "ab")) ed)) = "xab" /\
  text (ed_buffer (run (typed (printables "ab") ++ [CtrlZ]) ed)) = "xa" /\
  text (ed_buffer (run (typed (printables "ab") ++ [CtrlZ; CtrlZ]) ed)) = "x" /\
  cursor_position (ed_buffer (run (typed (printables "ab") ++ [CtrlZ; CtrlZ]) ed)) = 1%nat.
Proof. repeat split. Qed.

(** A key that changes nothing is no undo step.  With "x" typed and the
    cursor sent back to line 1, a backspace finds nothing before the cursor;
    the press of Ctrl+Z after it takes back the "x". *)
Example backspace_at_start_is_no_undo_step :
  let ed := run (typed (printables "x") ++ [CtrlG (Ok "1")]) fresh_editor in
  text (ed_buffer ed) = "x" /\
  cursor_position (ed_buffer ed) = 0%nat /\
  own_undo_step Backspace ed = false /\
  text (ed_buffer (run [Backspace] ed)) = "x" /\
  text (ed_buffer (run [Backspace; CtrlZ] ed)) = "".
Proof. repeat split. Qed.

(** * Further properties of the handlers *)

(** ** Line starts *)

Lemma cumulative_increasing :
  forall ls pos, increasing_from pos (cumulative pos ls).
Proof.
  induction ls as [|l ls IH]; intro pos; cbn [cumulative increasing_from]; [exact I|].
  split; [lia|apply IH].
Qed.

Lemma removelast_increasing :
  forall l lo, increasing_from lo l -> increasing_from lo (removelast l).
Proof.
  induction l as [|x l IH]; intros lo H; [exact I|].
  destruct l as [|y l']; [exact I|].
  change (removelast (x :: y :: l')) with (x :: removelast (y :: l')).
  cbn [increasing_from] in *. destruct H as [H1 H2].
  split; [exact H1|]. apply IH. exact H2.
Qed.

(** The line starts are 0 followed by strictly growing offsets. *)
Lemma line_start_indexes_shape :
  forall d, exists rest,
    line_start_indexes d = 0%nat :: rest /\ increasing_from 0 rest.
Proof.
  intro d. unfold line_start_indexes.
  pose proof (split_lines_not_nil (doc_text d)) as Hne. fold (lines d) in Hne.
  destruct (lines d) as [|l ls] eqn:E; [congruence|].
  cbn [cumulative]. 
  set (p := (0 + (String.length l + 1))%nat).
  assert (Hlen : (1 <? List.length (0%nat :: p :: cumulative p ls))%nat = true) by reflexivity.
  rewrite Hlen.
  change (removelast (0%nat :: p :: cumulative p ls))
    with (0%nat :: removelast (p :: cumulative p ls)).
  eexists. split; [reflexivity|].
  apply removelast_increasing. cbn [increasing_from].
  split; [unfold p; lia|apply cumulative_increasing].
Qed.

Lemma increasing_nth_above :
  forall l lo i, increasing_from lo l -> (i < List.length l)%nat -> (lo < nth i l 0)%nat.
Proof.
  induction l as [|x l IH]; intros lo i H Hi; [simpl in Hi; lia|].
  cbn [increasing_from] in H. destruct H as [H1 H2].
  destruct i as [|i]; [exact H1|].
  cbn [nth]. simpl in Hi. specialize (IH x i H2 ltac:(lia)). lia.
Qed.

Lemma increasing_nth_le_last :
  forall l x i, increasing_from x l -> (i < List.length (x :: l))%nat ->
                (nth i (x :: l) 0 <= last (x :: l) 0)%nat.
Proof.
  induction l as [|y l IH]; intros x i H Hi.
  - simpl in Hi. assert (i = 0)%nat by lia. subst. simpl. lia.
  - cbn [increasing_from] in H. destruct H as [H1 H2].
    change (last (x :: y :: l) 0%nat) with (last (y :: l) 0%nat).
    destruct i as [|i].
    + cbn [nth]. specialize (IH y 0%nat H2 ltac:(simpl; lia)). cbn [nth] in IH. lia.
    + change (nth (S i) (x :: y :: l) 0%nat) with (nth i (y :: l) 0%nat).
      apply IH; [exact H2|simpl in *; lia].
Qed.

Lemma bisect_right_below :
  forall l lo x, increasing_from lo l -> (x <= lo)%nat -> bisect_right l x = 0%nat.
Proof.
  intros l lo x H Hx. destruct l as [|y l]; [reflexivity|].
  cbn [increasing_from] in H. destruct H as [H1 _].
  cbn [bisect_right]. destruct (Nat.leb_spec y x); [lia|reflexivity].
Qed.

(** On a strictly growing list, [bisect_right] at the element of rank [i]
    answers [i + 1]. *)
Lemma bisect_right_at_element :
  forall l x i, increasing_from x l -> (i < List.length (x :: l))%nat ->
                bisect_right (x :: l) (nth i (x :: l) 0) = S i.
Proof.
  induction l as [|y l IH]; intros x i H Hi.
  - simpl in Hi. assert (i = 0)%nat by lia. subst. simpl. rewrite Nat.leb_refl. reflexivity.
  - pose proof H as H'. cbn [increasing_from] in H. destruct H as [H1 H2].
    destruct i as [|i].
    + cbn [nth].
      change (bisect_right (x :: y :: l) x)
        with (if (x <=? x)%nat then S (bisect_right (y :: l) x) else 0%nat).
      rewrite Nat.leb_refl.
      rewrite (bisect_right_below (y :: l) x x H' (le_n x)). reflexivity.
    + change (nth (S i) (x :: y :: l) 0%nat) with (nth i (y :: l) 0%nat).
      assert (Hi' : (i < List.length (y :: l))%nat) by (simpl in *; lia).
      assert (Hx : (x <= nth i (y :: l) 0)%nat).
      { destruct i as [|j]; [cbn [nth]; lia|].
        cbn [nth]. pose proof (increasing_nth_above l y j H2 ltac:(simpl in *; lia)). lia. }
      change (bisect_right (x :: y :: l) (nth i (y :: l) 0%nat))
        with (if (x <=? nth i (y :: l) 0)%nat
              then S (bisect_right (y :: l) (nth i (y :: l) 0%nat)) else 0%nat).
      destruct (Nat.leb_spec x (nth i (y :: l) 0%nat)); [|lia].
      rewrite (IH y i H2 Hi'). reflexivity.
Qed.

(** The start of a row is the length of the rows before it, each with its
    line break. *)
Lemma nth_prefix_sums :
  forall ls pos i,
    (i <= List.length ls)%nat ->
    nth i (pos :: cumulative pos ls) 0%nat = (pos + total (firstn i ls))%nat.
Proof.
  induction ls as [|l ls IH]; intros pos i Hi.
  - simpl in Hi. assert (i = 0)%nat by lia. subst. simpl. lia.
  - destruct i as [|i]; [simpl; lia|].
    cbn [cumulative]. 
    change (nth (S i) (pos :: (pos + (String.length l + 1))%nat
                         :: cumulative (pos + (String.length l + 1)) ls) 0%nat)
      with (nth i ((pos + (String.length l + 1))%nat
                     :: cumulative (pos + (String.length l + 1)) ls) 0%nat).
    rewrite IH by (simpl in Hi; lia). cbn [firstn total]. lia.
Qed.

Lemma nth_removelast :
  forall (A : Type) (l : list A) (i : nat) (d : A),
    (S i < List.length l)%nat -> nth i (removelast l) d = nth i l d.
Proof.
  induction l as [|x l IH]; intros i d Hi; [simpl in Hi; lia|].
  destruct l as [|y l']; [simpl in Hi; lia|].
  change (removelast (x :: y :: l')) with (x :: removelast (y :: l')).
  destruct i as [|i]; [reflexivity|].
  cbn [nth]. apply IH. simpl in *. lia.
Qed.

Lemma line_start_is_prefix_total :
  forall d i,
    (i < List.length (lines d))%nat ->
    nth i (line_start_indexes d) 0%nat = total (firstn i (lines d)).
Proof.
  intros d i Hi. unfold line_start_indexes.
  assert (Hlen : (1 <? List.length (0%nat :: cumulative 0 (lines d)))%nat = true).
  { cbn [List.length]. rewrite cumulative_length.
    destruct (lines d); [simpl in Hi; lia|reflexivity]. }
  rewrite Hlen, nth_removelast
    by (cbn [List.length]; rewrite cumulative_length; lia).
  rewrite nth_prefix_sums by lia. reflexivity.
Qed.

(** ** Go to a line of the document *)

Lemma index_inside :
  forall (A : Type) (l : list A) (i : Z) (d : A),
    (0 <= i < Z.of_nat (List.length l))%Z ->
    index l i = Some (nth (Z.to_nat i) l d).
Proof.
  intros A l i d H. unfold index.
  destruct (Z.leb_spec 0 i); [|lia].
  destruct (Z.ltb_spec i (Z.of_nat (List.length l))); [|lia].
  cbn [andb]. apply nth_error_nth'. lia.
Qed.

Lemma line_start_inside_text :
  forall d i,
    (i < List.length (lines d))%nat ->
    (nth i (line_start_indexes d) 0 <= String.length (doc_text d))%nat.
Proof.
  intros d i Hi.
  destruct (line_start_indexes_shape d) as [rest [Hs Hinc]].
  pose proof (line_start_indexes_length d) as Hlen.
  pose proof (last_line_start d) as Hlast.
  rewrite Hs in *.
  pose proof (increasing_nth_le_last rest 0%nat i Hinc ltac:(lia)). lia.
Qed.

Lemma translate_inside_row :
  forall d row,
    (0 <= row < Z.of_nat (List.length (lines d)))%Z ->
    translate_row_col_to_index d row 0
    = Z.of_nat (nth (Z.to_nat row) (line_start_indexes d) 0%nat).
Proof.
  intros d row H. unfold translate_row_col_to_index.
  rewrite (index_inside _ (line_start_indexes d) row 0%nat)
    by (rewrite line_start_indexes_length; exact H).
  rewrite (index_inside _ (lines d) row EmptyString) by exact H.
  pose proof (line_start_inside_text d (Z.to_nat row) ltac:(lia)) as Hle.
  unfold len. lia.
Qed.

Lemma row_col_at_line_start :
  forall d i,
    (i < List.length (lines d))%nat ->
    doc_cursor_position d = nth i (line_start_indexes d) 0%nat ->
    cursor_position_row d = i /\ cursor_position_col d = 0%nat.
Proof.
  intros d i Hi Hc.
  unfold cursor_position_row, cursor_position_col, find_line_start_index.
  destruct (line_start_indexes_shape d) as [rest [Hs Hinc]].
  pose proof (line_start_indexes_length d) as Hlen.
  rewrite Hc, Hs in *.
  rewrite (bisect_right_at_element rest 0%nat i Hinc) by lia.
  cbn [fst snd]. replace (S i - 1)%nat with i by lia. split; [reflexivity|lia].
Qed.

Lemma append_assoc :
  forall a b c : string, ((a ++ b) ++ c = a ++ (b ++ c))%string.
Proof.
  induction a as [|x a IH]; intros b c; simpl; [reflexivity|].
  rewrite IH. reflexivity.
Qed.

(** X1.  Go to line n, for n from 1 to the number of lines and an answer
    [int] takes, puts the cursor at the start of line n (the summed length of
    the lines before it, line breaks included), keeps the text, and the
    status bar then reads "Ln n, Col 1" followed by " [Line n]". *)
Theorem goto_line_in_range :
  forall (ed : Editor) (line_str : string) (n : Z),
    int line_str = Ok n ->
    (1 <= n <= Z.of_nat (List.length (lines (document (ed_buffer ed)))))%Z ->
    exists ed',
      on_goto (Ok line_str) ed = (ed', Done) /\
      text (ed_buffer ed') = text (ed_buffer ed) /\
      cursor_position (ed_buffer ed')
      = total (firstn (Z.to_nat (n - 1)) (lines (document (ed_buffer ed)))) /\
      cursor_position_row (document (ed_buffer ed')) = Z.to_nat (n - 1) /\
      cursor_position_col (document (ed_buffer ed')) = 0%nat /\
      get_statusbar_text ed'
      = " " ++ ed_filename ed ++ " | Ln " ++ str n ++ ", Col 1  [Line " ++ str n ++ "] ".
Proof.
  intros ed line_str n Hint Hn.
  set (d := document (ed_buffer ed)) in *.
  set (i := Z.to_nat (n - 1)).
  assert (Hi : (i < List.length (lines d))%nat) by (unfold i; lia).
  pose proof (line_start_inside_text d i Hi) as Hle.
  unfold on_goto. rewrite (int_ok_isdigit _ _ Hint), Hint.
  fold d. rewrite translate_inside_row by lia. fold i.
  rewrite set_cursor_position_inside by exact Hle.
  eexists. split; [reflexivity|].
  set (b' := mkBuffer (text (ed_buffer ed)) (nth i (line_start_indexes d) 0%nat)
                      (selection_state (ed_buffer ed)) (undo_stack (ed_buffer ed))
                      (redo_stack (ed_buffer ed))).
  assert (Hrc : cursor_position_row (document b') = i /\ cursor_position_col (document b') = 0%nat).
  { apply row_col_at_line_start; [exact Hi|reflexivity]. }
  destruct Hrc as [Hr Hc].
  unfold get_statusbar_text.
  cbn [with_message with_buffer ed_buffer ed_message ed_filename].
  fold b'. rewrite Hr, Hc.
  split; [reflexivity|]. split; [apply line_start_is_prefix_total; exact Hi|].
  split; [reflexivity|]. split; [reflexivity|].
  replace (n - 1 + 1)%Z with n by lia.
  replace (Z.of_nat (i + 1)) with n by (unfold i; lia).
  rewrite (append_assoc " [Line " (str n ++ "]") " ").
  rewrite (append_assoc (str n) "]" " ").
  reflexivity.
Qed.

Lemma goto_line_in_range_ten_lines :
  int "3" = Ok 3%Z /\
  exists ed',
    on_goto (Ok "3") ten_lines = (ed', Done) /\
    cursor_position (ed_buffer ed') = 4%nat /\
    get_statusbar_text ed' = " ten.txt | Ln 3, Col 1  [Line 3] ".
Proof.
  split; [reflexivity|].
  destruct (goto_line_in_range ten_lines "3" 3%Z eq_refl)
    as [ed' [Hg [_ [Hc [_ [_ Hs]]]]]].
  - vm_compute. split; discriminate.
  - exists ed'. split; [exact Hg|]. split; [rewrite Hc; reflexivity|exact Hs].
Defined.

Lemma nth_length_pred_last :
  forall (A : Type) (l : list A) (d : A),
    nth (List.length l - 1) l d = last l d.
Proof.
  induction l as [|x l IH]; intro d; [reflexivity|].
  destruct l as [|y l']; [reflexivity|].
  change (last (x :: y :: l') d) with (last (y :: l') d).
  rewrite <- IH. cbn [List.length]. 
  replace (S (S (List.length l')) - 1)%nat with (S (S (List.length l') - 1))%nat by lia.
  reflexivity.
Qed.




(** X3.  When the go-to-line handler raises: exactly for an answer that
    passes [isdigit] and that [int] refuses, because it holds a character
    that is no decimal digit (such as a superscript two) or because it is
    longer than 4300 digits (leading zeros count).  [int] then raises
    [ValueError] and the editor is as before.  Every other answer ends
    normally. *)
Theorem goto_raises_only_when_int_refuses :
  forall (ed : Editor) (line_str : string),
    let refused :=
      isdigit line_str
      && (negb (all_chars is_decimal line_str)
          || (max_str_digits <? String.length line_str)%nat) in
    snd (on_goto (Ok line_str) ed) = (if refused then Raised ValueError else Done) /\
    (refused = true -> on_goto (Ok line_str) ed = (ed, Raised ValueError)).
Proof.
  intros ed line_str. cbv zeta. unfold on_goto, int.
  destruct (isdigit line_str) eqn:Hd; cbn [andb].
  - destruct line_str as [|c s]; [discriminate|].
    destruct (all_chars is_decimal (String c s)); cbn [negb orb snd].
    + destruct (max_str_digits <? String.length (String c s))%nat; cbn [snd].
      * split; reflexivity.
      * split; [reflexivity|discriminate].
    + split; reflexivity.
  - split; [reflexivity|discriminate].
Qed.

Lemma goto_raises_only_when_int_refuses_long :
  isdigit (zeros 4300 ++ "3")
  && (negb (all_chars is_decimal (zeros 4300 ++ "3"))
      || (max_str_digits <? String.length (zeros 4300 ++ "3"))%nat) = true /\
  on_goto (Ok (zeros 4300 ++ "3")) ten_lines = (ten_lines, Raised ValueError).
Proof.
  assert (H : isdigit (zeros 4300 ++ "3")
              && (negb (all_chars is_decimal (zeros 4300 ++ "3"))
                  || (max_str_digits <? String.length (zeros 4300 ++ "3"))%nat) = true)
    by (vm_compute; reflexivity).
  split; [exact H|].
  exact (proj2 (goto_raises_only_when_int_refuses ten_lines (zeros 4300 ++ "3")) H).
Defined.

Example goto_superscript_is_refused :
  on_goto (Ok (String (ascii_of_nat 178) "1")) ten_lines = (ten_lines, Raised ValueError) /\
  on_goto (Ok (zeros 4299 ++ "3")) ten_lines = on_goto (Ok "3") ten_lines.
Proof. split; vm_compute; reflexivity. Qed.

(** ** Typing *)

Lemma take_length :
  forall n s, (n <= String.length s)%nat -> String.length (take n s) = n.
Proof.
  induction n as [|n IH]; intros s H; [reflexivity|].
  destruct s as [|c s]; [simpl in H; lia|].
  simpl in *. rewrite IH by lia. reflexivity.
Qed.

Lemma take_drop_id : forall n s, (take n s ++ drop n s)%string = s.
Proof.
  induction n as [|n IH]; intro s; [reflexivity|].
  destruct s as [|c s]; [reflexivity|]. simpl. rewrite IH. reflexivity.
Qed.

Lemma take_append_exact :
  forall a b, take (String.length a) (a ++ b) = a.
Proof.
  induction a as [|c a IH]; intro b; simpl.
  - destruct b; reflexivity.
  - rewrite IH. reflexivity.
Qed.

Lemma drop_append_exact :
  forall a b, drop (String.length a) (a ++ b) = b.
Proof.
  induction a as [|c a IH]; intro b; simpl; [reflexivity|apply IH].
Qed.

Lemma insert_text_exact :
  forall (d : string) (b : Buffer),
    (cursor_position b <= String.length (text b))%nat ->
    d <> EmptyString ->
    insert_text d b
    = (mkBuffer (take (cursor_position b) (text b) ++ d ++ drop (cursor_position b) (text b))
                (cursor_position b + String.length d) None
                (undo_stack b) (redo_stack b), Done).
Proof.
  intros d b Hv Hd. unfold insert_text, new_document.
  set (t' := (take (cursor_position b) (text b) ++ d ++ drop (cursor_position b) (text b))%string).
  assert (Hlen : String.length t' = (String.length (text b) + String.length d)%nat).
  { unfold t'. rewrite !length_append.
    pose proof (length_take_drop (cursor_position b) (text b)). lia. }
  destruct (Nat.ltb_spec (String.length t') (cursor_position b + String.length d)); [lia|].
  unfold set_document. cbn [doc_text doc_cursor_position].
  assert (Hne : String.eqb t' (text b) = false).
  { apply String.eqb_neq. intro E. rewrite E in Hlen.
    destruct d; [congruence|simpl in Hlen; lia]. }
  rewrite Hne. reflexivity.
Qed.

(** One typed character, in a state without selection. *)
Lemma typed_press :
  forall (ch : printable) (ed : Editor),
    valid ed ->
    selection_state (ed_buffer ed) = None ->
    ed_exited ed = false ->
    exists ed',
      press (Typed ch) ed = (ed', Done) /\
      text (ed_buffer ed')
      = (take (cursor_position (ed_buffer ed)) (text (ed_buffer ed))
         ++ String (pr_char ch)
              (drop (cursor_position (ed_buffer ed)) (text (ed_buffer ed))))%string /\
      cursor_position (ed_buffer ed') = S (cursor_position (ed_buffer ed)) /\
      selection_state (ed_buffer ed') = None /\
      ed_exited ed' = false.
Proof.
  intros ch ed Hv Hsel Hx. unfold press. rewrite Hx.
  cbn [binding_of]. rewrite Hsel. cbn [save_before call]. unfold self_insert.
  assert (Hne : String (pr_char ch) EmptyString <> EmptyString) by discriminate.
  cbn [with_buffer ed_buffer].
  rewrite (insert_text_exact _ (save_to_undo_stack true (ed_buffer ed)) Hv Hne).
  eexists. split; [reflexivity|].
  cbn [with_previous_handler with_buffer ed_buffer ed_exited
       text cursor_position selection_state save_to_undo_stack String.length].
  repeat split; try assumption; lia.
Qed.

Lemma insert_one_then_rest :
  forall c t ch rest,
    (c <= String.length t)%nat ->
    (take (S c) (take c t ++ String ch (drop c t))
     ++ rest ++ drop (S c) (take c t ++ String ch (drop c t)))%string
    = (take c t ++ String ch rest ++ drop c t)%string.
Proof.
  intros c t ch rest Hc.
  pose proof (take_length c t Hc) as Hl.
  assert (E : (take c t ++ String ch (drop c t))%string
              = ((take c t ++ String ch EmptyString) ++ drop c t)%string).
  { rewrite append_assoc. reflexivity. }
  assert (Hl' : String.length (take c t ++ String ch EmptyString) = S c).
  { rewrite length_append. simpl. lia. }
  rewrite E. rewrite <- Hl' at 1. rewrite take_append_exact.
  rewrite <- Hl'. rewrite drop_append_exact.
  rewrite append_assoc. reflexivity.
Qed.

(** A run of typed characters. *)
Lemma typed_run :
  forall (cs : list printable) (ed : Editor),
    valid ed ->
    selection_state (ed_buffer ed) = None ->
    ed_exited ed = false ->
    text (ed_buffer (run (typed cs) ed))
    = (take (cursor_position (ed_buffer ed)) (text (ed_buffer ed))
       ++ chars cs ++ drop (cursor_position (ed_buffer ed)) (text (ed_buffer ed)))%string /\
    cursor_position (ed_buffer (run (typed cs) ed))
    = (cursor_position (ed_buffer ed) + List.length cs)%nat /\
    selection_state (ed_buffer (run (typed cs) ed)) = None /\
    ed_exited (run (typed cs) ed) = false.
Proof.
  induction cs as [|ch cs IH]; intros ed Hv Hsel Hx.
  - unfold typed, run. cbn [map fold_left chars List.length].
    change (EmptyString ++ ?x)%string with x.
    rewrite take_drop_id. repeat split; try assumption; lia.
  - destruct (typed_press ch ed Hv Hsel Hx) as [ed1 [Hp [Ht [Hc [Hs1 Hx1]]]]].
    assert (Hv1 : valid ed1).
    { pose proof (press_keeps_valid (Typed ch) ed Hv) as H. rewrite Hp in H. exact H. }
    specialize (IH ed1 Hv1 Hs1 Hx1). destruct IH as [It [Ic [Is Ix]]].
    assert (Hr : run (typed (ch :: cs)) ed = run (typed cs) ed1).
    { unfold typed, run. cbn [map fold_left]. rewrite Hp. reflexivity. }
    rewrite Hr, It, Ic, Is, Ix, Ht, Hc.
    unfold valid in Hv.
    rewrite insert_one_then_rest by exact Hv.
    cbn [chars List.length]. repeat split; lia.
Qed.

(** X4.  Typed printable characters go into the text at the cursor, in the
    order they are typed, and the cursor ends behind them (no selection
    active). *)
Theorem typing_inserts_at_cursor :
  forall (cs : list printable) (ed : Editor),
    valid ed ->
    selection_state (ed_buffer ed) = None ->
    ed_exited ed = false ->
    text (ed_buffer (run (typed cs) ed))
    = (take (cursor_position (ed_buffer ed)) (text (ed_buffer ed))
       ++ chars cs ++ drop (cursor_position (ed_buffer ed)) (text (ed_buffer ed)))%string /\
    cursor_position (ed_buffer (run (typed cs) ed))
    = (cursor_position (ed_buffer ed) + List.length cs)%nat.
Proof.
  intros cs ed Hv Hsel Hx.
  destruct (typed_run cs ed Hv Hsel Hx) as [Ht [Hc _]]. split; assumption.
Qed.

Lemma typing_inserts_at_cursor_hello :
  valid hello /\
  chars (printables "y, ") = "y, " /\
  text (ed_buffer (run (typed (printables "y, ")) hello)) = "hey, llo" /\
  cursor_position (ed_buffer (run (typed (printables "y, ")) hello)) = 5%nat.
Proof.
  assert (Hv : valid hello) by (unfold valid; simpl; lia).
  split; [exact Hv|]. split; [reflexivity|].
  exact (typing_inserts_at_cursor (printables "y, ") hello Hv eq_refl eq_refl).
Defined.

(** X5.  Every typed character is an undo step of its own: after any run of
    typed characters, one press of Ctrl+Z takes back the last character and
    nothing else, and puts the cursor where it was before that character. *)
Theorem undo_takes_back_the_last_typed_character :
  forall (cs : list printable) (c : printable) (ed : Editor),
    valid ed ->
    selection_state (ed_buffer ed) = None ->
    ed_exited ed = false ->
    text (ed_buffer (run (typed (cs ++ [c]) ++ [CtrlZ]) ed))
    = text (ed_buffer (run (typed cs) ed)) /\
    cursor_position (ed_buffer (run (typed (cs ++ [c]) ++ [CtrlZ]) ed))
    = cursor_position (ed_buffer (run (typed cs) ed)).
Proof.
  intros cs c ed Hv Hsel Hx.
  destruct (typed_run cs ed Hv Hsel Hx) as [_ [_ [Hs1 Hx1]]].
  pose proof (run_keeps_valid (typed cs) ed Hv) as Hv1.
  assert (Hstep : own_undo_steps [Typed c] (run (typed cs) ed) = true).
  { cbn [own_undo_steps]. unfold own_undo_step. rewrite Hx1, Hs1. reflexivity. }
  destruct (undo_unwinds_own_steps [Typed c] (run (typed cs) ed) Hv1 Hstep)
    as [Ht [Hc _]].
  assert (E : (typed (cs ++ [c]) ++ [CtrlZ])%list
              = (typed cs ++ ([Typed c] ++ repeat CtrlZ (List.length [Typed c])))%list).
  { unfold typed. rewrite map_app, <- app_assoc. reflexivity. }
  rewrite E, run_app. split; assumption.
Qed.

Lemma undo_takes_back_the_last_typed_character_hello :
  valid hello /\
  text (ed_buffer (run (typed (printables "y,") ++ [CtrlZ]) hello)) = "heyllo" /\
  cursor_position (ed_buffer (run (typed (printables "y,") ++ [CtrlZ]) hello)) = 3%nat.
Proof.
  assert (Hv : valid hello) by (unfold valid; simpl; lia).
  split; [exact Hv|].
  exact (undo_takes_back_the_last_typed_character
           (printables "y") (mkPrintable ","%char eq_refl) hello Hv eq_refl eq_refl).
Defined.

(** ** Undo and redo through the key processor *)

Lemma undo_loop_nothing :
  forall (S : list (string * nat)) (b : Buffer),
    strip (text b) S = [] ->
    undo_loop S b
    = (mkBuffer (text b) (cursor_position b) (selection_state b) [] (redo_stack b), Done).
Proof.
  induction S as [|[t p] S IH]; intros b H; [reflexivity|].
  cbn [undo_loop]. simpl in H.
  destruct (String.eqb t (text b)); [apply IH; exact H|discriminate].
Qed.

(** X6.  With nothing to undo (every snapshot on the undo stack holds the
    current text, as right after the start), Ctrl+Z ends normally and leaves
    text, cursor and selection as they are. *)
Theorem undo_with_nothing_to_undo :
  forall ed : Editor,
    strip (text (ed_buffer ed)) (undo_stack (ed_buffer ed)) = [] ->
    snd (press CtrlZ ed) = Done /\
    text (ed_buffer (fst (press CtrlZ ed))) = text (ed_buffer ed) /\
    cursor_position (ed_buffer (fst (press CtrlZ ed))) = cursor_position (ed_buffer ed) /\
    selection_state (ed_buffer (fst (press CtrlZ ed))) = selection_state (ed_buffer ed).
Proof.
  intros ed H. unfold press.
  destruct (ed_exited ed); [repeat split|].
  cbn [binding_of save_before call]. unfold on_undo, undo.
  cbn [with_buffer ed_buffer].
  destruct (save_to_undo_stack_shape true (ed_buffer ed)) as [B [HB Hs]].
  rewrite HB. cbn [undo_loop].
  change (text (save_to_undo_stack true (ed_buffer ed))) with (text (ed_buffer ed)).
  rewrite String.eqb_refl.
  rewrite undo_loop_nothing
    by (change (text (save_to_undo_stack true (ed_buffer ed))) with (text (ed_buffer ed));
        rewrite Hs; exact H).
  repeat split.
Qed.

Lemma undo_with_nothing_to_undo_fresh :
  text (ed_buffer (fst (press CtrlZ fresh_editor))) = text (ed_buffer fresh_editor).
Proof.
  exact (proj1 (proj2 (undo_with_nothing_to_undo fresh_editor eq_refl))).
Defined.

(** X7.  Ctrl+Y never brings anything back: the key processor saves the
    buffer to the undo stack before the handler runs, which empties the redo
    stack, so [redo] finds nothing.  The press ends normally with text,
    cursor and selection as before, whatever the redo stack held. *)
Theorem redo_key_never_changes_the_text :
  forall ed : Editor,
    snd (press CtrlY ed) = Done /\
    text (ed_buffer (fst (press CtrlY ed))) = text (ed_buffer ed) /\
    cursor_position (ed_buffer (fst (press CtrlY ed))) = cursor_position (ed_buffer ed) /\
    selection_state (ed_buffer (fst (press CtrlY ed))) = selection_state (ed_buffer ed) /\
    (ed_exited ed = false -> redo_stack (ed_buffer (fst (press CtrlY ed))) = []).
Proof.
  intro ed. unfold press.
  destruct (ed_exited ed); [repeat split; discriminate|].
  cbn [binding_of save_before call]. unfold on_redo, redo.
  cbn [with_buffer ed_buffer save_to_undo_stack redo_stack].
  repeat split.
Qed.

Lemma redo_key_never_changes_the_text_after_undo :
  text (ed_buffer (run ([CtrlV; CtrlZ]) hello)) = "hello" /\
  redo_stack (ed_buffer (run ([CtrlV; CtrlZ]) hello)) = [("hezzllo", 4%nat)] /\
  text (ed_buffer (run ([CtrlV; CtrlZ; CtrlY]) hello)) = "hello" /\
  redo_stack (ed_buffer (fst (press CtrlY (run ([CtrlV; CtrlZ]) hello)))) = [].
Proof.
  split; [reflexivity|]. split; [reflexivity|]. split; [reflexivity|].
  exact (proj2 (proj2 (proj2 (proj2
           (redo_key_never_changes_the_text (run ([CtrlV; CtrlZ]) hello))))) eq_refl).
Defined.

(** ** What the handlers leave alone *)

Lemma call_keeps_clipboard :
  forall k ed, ed_clipboard (fst (call k ed)) = ed_clipboard ed.
Proof.
  intros k ed.
  destruct k; cbn [call];
    unfold on_save, save_file, on_quit, on_find, on_goto, on_copy, on_cut,
           on_paste, on_undo, on_redo, self_insert, newline_handler,
           backward_delete_char;
    try (destruct (fs_fault fs); reflexivity);
    repeat break_match; simpl; congruence.
Qed.

(** X8.  Copy and cut never reach the clipboard or the text.  With a
    selection both stop with [AttributeError] at
    [buf.document.selection_range_text], before [set_data] and before the
    delete, and the editor is as before; and whichever handler of the editor
    runs, in whatever state, the clipboard holds afterwards what it held. *)
Theorem handlers_never_write_the_clipboard :
  forall ed : Editor,
    (forall sel, selection_state (ed_buffer ed) = Some sel ->
       on_copy ed = (ed, Raised (AttributeError "Document" "selection_range_text")) /\
       on_cut ed = (ed, Raised (AttributeError "Document" "selection_range_text"))) /\
    (forall k : Key, ed_clipboard (fst (call k ed)) = ed_clipboard ed).
Proof.
  intro ed. split.
  - intros sel H. unfold on_copy, on_cut. rewrite H. split; reflexivity.
  - intro k. apply call_keeps_clipboard.
Qed.

Lemma handlers_never_write_the_clipboard_selected :
  on_cut (with_buffer (mkBuffer "hello" 2 (Some (mkSelection 0)) [] []) hello)
  = (with_buffer (mkBuffer "hello" 2 (Some (mkSelection 0)) [] []) hello,
     Raised (AttributeError "Document" "selection_range_text")).
Proof.
  exact (proj2 (proj1 (handlers_never_write_the_clipboard
                         (with_buffer (mkBuffer "hello" 2 (Some (mkSelection 0)) [] []) hello))
                      (mkSelection 0) eq_refl)).
Defined.

(** X9.  Save, quit, find, go to line, copy and cut never change the text or
    the selection, however they end; all of them but go to line leave the
    cursor where it is. *)
Theorem other_keys_keep_the_text :
  forall (k : Key) (ed : Editor),
    editing_key k = false ->
    text (ed_buffer (fst (press k ed))) = text (ed_buffer ed) /\
    selection_state (ed_buffer (fst (press k ed))) = selection_state (ed_buffer ed) /\
    ((forall answer, k <> CtrlG answer) ->
     cursor_position (ed_buffer (fst (press k ed))) = cursor_position (ed_buffer ed)).
Proof.
  intros k ed Hk. unfold press.
  destruct (ed_exited ed); [(repeat split; intros; reflexivity)|].
  destruct k; try discriminate; cbn [binding_of save_before call].
  - unfold on_save, save_file. cbn [with_buffer ed_buffer ed_filename].
    destruct (fs_fault fs); (repeat split; intros; reflexivity).
  - (repeat split; intros; reflexivity).
  - unfold on_find. destruct answer as [[|c s]|e]; (repeat split; intros; reflexivity).
  - unfold on_goto. destruct answer as [s|e]; [|(repeat split; intros; reflexivity)].
    destruct (isdigit s); [|(repeat split; intros; reflexivity)].
    destruct (int s) as [n|e]; [|(repeat split; intros; reflexivity)].
    split; [reflexivity|]. split; [reflexivity|].
    intro H. exfalso. exact (H (Ok s) eq_refl).
  - unfold on_copy. cbn [with_buffer ed_buffer save_to_undo_stack selection_state].
    destruct (selection_state (ed_buffer ed)) eqn:E;
      (repeat split; intros; simpl; congruence).
  - unfold on_cut. cbn [with_buffer ed_buffer save_to_undo_stack selection_state].
    destruct (selection_state (ed_buffer ed)) eqn:E;
      (repeat split; intros; simpl; congruence).
Qed.

Lemma other_keys_keep_the_text_save :
  editing_key (CtrlS disk_full) = false /\
  text (ed_buffer (fst (press (CtrlS disk_full) hello))) = "hello" /\
  cursor_position (ed_buffer (fst (press (CtrlS disk_full) hello))) = 2%nat.
Proof.
  split; [reflexivity|].
  destruct (other_keys_keep_the_text (CtrlS disk_full) hello eq_refl) as [Ht [_ Hc]].
  split; [exact Ht|]. apply Hc. intros answer H. discriminate H.
Defined.

(** ** Starting the editor *)

(** X10.  [load_file] hands on the text of the file as it is, turns a
    missing file into the empty text, and lets every other failure of the
    file system pass, which then ends the start of the program. *)
Theorem load_file_passes_other_failures :
  forall (fs_read : string -> result string) (name : string),
    (forall content, fs_read name = Ok content -> load_file fs_read name = Ok content) /\
    (forall e, fs_read name = Raise e -> e <> FileNotFoundError ->
       load_file fs_read name = Raise e /\
       forall guess argv, filename argv = name -> startup fs_read guess argv = Raise e).
Proof.
  intros fs_read name. split.
  - intros content H. unfold load_file. rewrite H. reflexivity.
  - intros e H Hne.
    assert (Hl : load_file fs_read name = Raise e).
    { unfold load_file. rewrite H. destruct e; try reflexivity. congruence. }
    split; [exact Hl|].
    intros guess argv Hn. unfold startup. rewrite Hn, Hl. reflexivity.
Qed.

Lemma load_file_passes_other_failures_denied :
  load_file (fun _ => Raise (OSError "Permission denied")) "secret.txt"
  = Raise (OSError "Permission denied") /\
  startup (fun _ => Raise (OSError "Permission denied")) no_language ["kobi.py"; "secret.txt"]
  = Raise (OSError "Permission denied").
Proof.
  destruct (proj2 (load_file_passes_other_failures
                     (fun _ => Raise (OSError "Permission denied")) "secret.txt")
                  (OSError "Permission denied") eq_refl ltac:(discriminate))
    as [Hl Hs].
  split; [exact Hl|]. exact (Hs no_language ["kobi.py"; "secret.txt"] eq_refl).
Defined.

(** X11.  Started with arguments, the program works on the first one and
    ignores the others: it is the file loaded, the file every later save
    writes, and the name at the head of the status bar. *)
Theorem first_argument_is_the_file :
  forall (fs_read : string -> result string)
         (guess : string -> string -> result string)
         (prog name : string) (more : list string),
    filename (prog :: name :: more) = name /\
    startup fs_read guess (prog :: name :: more)
    = match load_file fs_read name with
      | Raise e => Raise e
      | Ok content =>
          match make_lexer guess name content with
          | Raise e => Raise e
          | Ok lexer =>
              Ok (mkEditor name lexer (new_buffer content) EmptyString
                           (Some (mkClipboardData EmptyString)) None false)
          end
      end /\
    forall ed, startup fs_read guess (prog :: name :: more) = Ok ed ->
      forall ks : list Key,
        ed_filename (run ks ed) = name /\
        (forall fs_write,
            on_save fs_write (run ks ed) = save_file fs_write name (run ks ed)) /\
        exists rest, get_statusbar_text (run ks ed) = (" " ++ name ++ " | Ln " ++ rest)%string.
Proof.
  intros fs_read guess prog name more.
  split; [reflexivity|]. split; [reflexivity|].
  intros ed Hs ks.
  assert (Hn : ed_filename ed = name).
  { unfold startup in Hs. cbn [filename List.length Nat.ltb Nat.leb nth] in Hs.
    destruct (load_file fs_read name); [|discriminate].
    destruct (make_lexer guess name a); [|discriminate].
    inversion Hs. reflexivity. }
  assert (Hr : ed_filename (run ks ed) = name)
    by (rewrite run_keeps_filename; exact Hn).
  split; [exact Hr|]. split.
  - intro fs_write. unfold on_save. rewrite Hr. reflexivity.
  - unfold get_statusbar_text. rewrite Hr. eexists. reflexivity.
Qed.

Lemma first_argument_is_the_file_notes :
  startup no_files no_language ["kobi.py"; "notes.txt"; "other.txt"]
  = Ok (mkEditor "notes.txt" None (new_buffer EmptyString) EmptyString
                 (Some (mkClipboardData EmptyString)) None false) /\
  ed_filename
    (run (typed (printables "hi"))
       (mkEditor "notes.txt" None (new_buffer EmptyString) EmptyString
                 (Some (mkClipboardData EmptyString)) None false))
  = "notes.txt".
Proof.
  destruct (first_argument_is_the_file no_files no_language
              "kobi.py" "notes.txt" ["other.txt"]) as [_ [Hs Hr]].
  split; [exact Hs|].
  exact (proj1 (Hr _ Hs (typed (printables "hi")))).
Defined.

(** X12.  Whatever the file holds, the editor starts with the cursor at the
    first character, no selection, empty undo and redo stacks, and the status
    bar " <name> | Ln 1, Col 1  ". *)
Theorem editor_starts_at_line_1_column_1 :
  forall (fs_read : string -> result string)
         (guess : string -> string -> result string)
         (argv : list string) (ed : Editor),
    startup fs_read guess argv = Ok ed ->
    load_file fs_read (filename argv) = Ok (text (ed_buffer ed)) /\
    cursor_position (ed_buffer ed) = 0%nat /\
    selection_state (ed_buffer ed) = None /\
    undo_stack (ed_buffer ed) = [] /\
    redo_stack (ed_buffer ed) = [] /\
    get_statusbar_text ed = (" " ++ filename argv ++ " | Ln 1, Col 1  ")%string.
Proof.
  intros fs_read guess argv ed Hs. unfold startup in Hs.
  destruct (load_file fs_read (filename argv)) as [content|e] eqn:Hl; [|discriminate].
  destruct (make_lexer guess (filename argv) content) as [lexer|e]; [|discriminate].
  inversion Hs; subst ed; clear Hs.
  cbn [ed_buffer new_buffer text cursor_position selection_state undo_stack redo_stack].
  repeat split.
  unfold get_statusbar_text. cbn [ed_buffer ed_filename ed_message].
  assert (Hrc : cursor_position_row (document (new_buffer content)) = 0%nat /\
                cursor_position_col (document (new_buffer content)) = 0%nat).
  { apply row_col_at_line_start.
    - pose proof (split_lines_not_nil content) as Hne. unfold lines. cbn [document new_buffer doc_text text].
      destruct (split_lines content); [congruence|simpl; lia].
    - destruct (line_start_indexes_shape (document (new_buffer content))) as [rest [Hsh _]].
      rewrite Hsh. reflexivity. }
  destruct Hrc as [Hr Hc]. rewrite Hr, Hc. reflexivity.
Qed.

Lemma editor_starts_at_line_1_column_1_readme :
  startup (fun _ => Ok ("# kobi" ++ nl ++ "an editor")) no_language ["kobi.py"; "README.md"]
  = Ok (mkEditor "README.md" None (new_buffer ("# kobi" ++ nl ++ "an editor")) EmptyString
                 (Some (mkClipboardData EmptyString)) None false) /\
  get_statusbar_text
    (mkEditor "README.md" None (new_buffer ("# kobi" ++ nl ++ "an editor")) EmptyString
              (Some (mkClipboardData EmptyString)) None false)
  = " README.md | Ln 1, Col 1  ".
Proof.
  split; [reflexivity|].
  exact (proj2 (proj2 (proj2 (proj2 (proj2
           (editor_starts_at_line_1_column_1
              (fun _ => Ok ("# kobi" ++ nl ++ "an editor")) no_language
              ["kobi.py"; "README.md"] _ eq_refl)))))).
Defined.

(** X13.  In every state a session started by the program reaches, whatever
    keys were pressed, the cursor lies inside the text or right behind it. *)
Theorem cursor_stays_inside_the_text :
  forall (fs_read : string -> result string)
         (guess : string -> string -> result string)
         (argv : list string) (ed : Editor) (ks : list Key),
    startup fs_read guess argv = Ok ed ->
    (cursor_position (ed_buffer (run ks ed))
     <= String.length (text (ed_buffer (run ks ed))))%nat.
Proof.
  intros fs_read guess argv ed ks Hs.
  apply (run_keeps_valid ks ed). exact (startup_valid fs_read guess argv ed Hs).
Qed.

Lemma cursor_stays_inside_the_text_fresh :
  (cursor_position (ed_buffer (run (typed (printables "ab") ++ [CtrlZ; CtrlG (Ok "7"); CtrlY]) fresh_editor))
   <= String.length (text (ed_buffer (run (typed (printables "ab") ++ [CtrlZ; CtrlG (Ok "7"); CtrlY]) fresh_editor))))%nat.
Proof.
  exact (cursor_stays_inside_the_text no_files no_language ["kobi.py"] fresh_editor
           (typed (printables "ab") ++ [CtrlZ; CtrlG (Ok "7"); CtrlY]) eq_refl).
Defined.

(** ** Paste *)

(** X14.  Paste puts the clipboard text into the buffer at the cursor: the
    text before the cursor and the text from the cursor on are kept around
    it, the cursor ends right behind the pasted text, the selection is
    dropped, the status reads " [Pasted]" and the clipboard keeps its text. *)
Theorem paste_inserts_at_cursor :
  forall (ed : Editor) (data : ClipboardData),
    valid ed ->
    ed_clipboard ed = Some data ->
    clip_text data <> EmptyString ->
    exists ed',
      on_paste ed = (ed', Done) /\
      text (ed_buffer ed')
      = (take (cursor_position (ed_buffer ed)) (text (ed_buffer ed))
         ++ clip_text data
         ++ drop (cursor_position (ed_buffer ed)) (text (ed_buffer ed)))%string /\
      take (cursor_position (ed_buffer ed)) (text (ed_buffer ed'))
      = take (cursor_position (ed_buffer ed)) (text (ed_buffer ed)) /\
      drop (cursor_position (ed_buffer ed')) (text (ed_buffer ed'))
      = drop (cursor_position (ed_buffer ed)) (text (ed_buffer ed)) /\
      cursor_position (ed_buffer ed')
      = (cursor_position (ed_buffer ed) + String.length (clip_text data))%nat /\
      selection_state (ed_buffer ed') = None /\
      ed_message ed' = " [Pasted]" /\
      ed_clipboard ed' = Some data.
Proof.
  intros ed data Hv Hc Hd. unfold on_paste. rewrite Hc.
  destruct (clip_text data) as [|c0 d0] eqn:E; [congruence|].
  rewrite (insert_text_exact (String c0 d0) (ed_buffer ed) Hv Hd).
  eexists. split; [reflexivity|].
  cbn [with_message with_buffer ed_buffer ed_message ed_clipboard
       text cursor_position selection_state].
  set (c := cursor_position (ed_buffer ed)). set (t := text (ed_buffer ed)).
  pose proof (take_length c t Hv) as Hl.
  repeat split; try assumption.
  - rewrite <- Hl at 1. apply take_append_exact.
  - rewrite <- append_assoc.
    replace (c + String.length (String c0 d0))%nat
      with (String.length (take c t ++ String c0 d0)%string)
      by (rewrite length_append; lia).
    apply drop_append_exact.
Qed.

Lemma paste_inserts_at_cursor_hello :
  valid hello /\
  exists ed',
    on_paste hello = (ed', Done) /\
    text (ed_buffer ed') = "hezzllo" /\
    cursor_position (ed_buffer ed') = 4%nat.
Proof.
  assert (Hv : valid hello) by (unfold valid; simpl; lia).
  split; [exact Hv|].
  destruct (paste_inserts_at_cursor hello (mkClipboardData "zz") Hv eq_refl
              ltac:(discriminate))
    as [ed' [Hp [Ht [_ [_ [Hc _]]]]]].
  exists ed'. split; [exact Hp|]. split; [exact Ht|exact Hc].
Defined.

(** ** Line breaks *)

Lemma lstrip_length :
  forall s, (String.length (lstrip s) <= String.length s)%nat.
Proof.
  induction s as [|c s IH]; [reflexivity|].
  cbn [lstrip]. destruct (is_space c); cbn [String.length]; lia.
Qed.

(** [lstrip] cuts a text into its leading blanks and a rest that does not
    begin with one. *)
Lemma lstrip_margin :
  forall s,
    all_chars is_space (take (String.length s - String.length (lstrip s)) s) = true /\
    (take (String.length s - String.length (lstrip s)) s ++ lstrip s)%string = s /\
    starts_with_space (lstrip s) = false.
Proof.
  induction s as [|c s [IH1 [IH2 IH3]]]; [repeat split|].
  cbn [lstrip]. destruct (is_space c) eqn:E.
  - pose proof (lstrip_length s) as Hl.
    replace (String.length (String c s) - String.length (lstrip s))%nat
      with (S (String.length s - String.length (lstrip s)))
      by (cbn [String.length]; lia).
    cbn [take all_chars append]. rewrite E, IH1, IH2. repeat split. exact IH3.
  - rewrite Nat.sub_diag. cbn [take all_chars append starts_with_space].
    repeat split. exact E.
Qed.

(** X18.  Enter, with no selection, breaks the line at the cursor and takes
    the margin of the current line along: the line break and the blanks the
    line begins with are inserted at the cursor, the text before and behind
    it is kept, and the cursor ends behind the copied margin. *)
Theorem enter_copies_the_margin :
  forall ed : Editor,
    valid ed ->
    ed_exited ed = false ->
    selection_state (ed_buffer ed) = None ->
    let line := current_line (document (ed_buffer ed)) in
    let margin := leading_whitespace_in_current_line (document (ed_buffer ed)) in
    all_chars is_space margin = true /\
    line = (margin ++ lstrip line)%string /\
    starts_with_space (lstrip line) = false /\
    exists ed',
      press Enter ed = (ed', Done) /\
      text (ed_buffer ed')
      = (take (cursor_position (ed_buffer ed)) (text (ed_buffer ed))
         ++ nl ++ margin
         ++ drop (cursor_position (ed_buffer ed)) (text (ed_buffer ed)))%string /\
      cursor_position (ed_buffer ed')
      = (cursor_position (ed_buffer ed) + 1 + String.length margin)%nat.
Proof.
  intros ed Hv Hx Hsel line margin.
  destruct (lstrip_margin line) as [Hs [Hm Hr]].
  split; [exact Hs|]. split; [symmetry; exact Hm|]. split; [exact Hr|].
  unfold press. rewrite Hx. cbn [binding_of]. rewrite Hsel.
  cbn [save_before call with_buffer ed_buffer save_to_undo_stack selection_state].
  rewrite Hsel. unfold newline_handler, buffer_newline. cbn [with_buffer ed_buffer].
  change (document (save_to_undo_stack true (ed_buffer ed)))
    with (document (ed_buffer ed)).
  fold margin.
  rewrite (insert_text_exact (String newline margin)
             (save_to_undo_stack true (ed_buffer ed)) Hv ltac:(discriminate)).
  eexists. split; [reflexivity|].
  cbn [with_previous_handler with_buffer ed_buffer text cursor_position
       save_to_undo_stack String.length].
  split; [reflexivity|lia].
Qed.

Lemma enter_copies_the_margin_indented :
  valid indented /\
  exists ed',
    press Enter indented = (ed', Done) /\
    text (ed_buffer ed') = "  ab" ++ nl ++ "  " /\
    cursor_position (ed_buffer ed') = 7%nat.
Proof.
  assert (Hv : valid indented) by (unfold valid; simpl; lia).
  split; [exact Hv|].
  destruct (enter_copies_the_margin indented Hv eq_refl eq_refl)
    as [_ [_ [_ [ed' [Hp [Ht Hc]]]]]].
  exists ed'. split; [exact Hp|]. split; [exact Ht|exact Hc].
Defined.

(** ** Rows, columns and offsets *)

Lemma bisect_right_locates :
  forall l x o,
    increasing_from x l -> (x <= o)%nat ->
    (1 <= bisect_right (x :: l) o <= List.length (x :: l))%nat /\
    (nth (bisect_right (x :: l) o - 1) (x :: l) 0 <= o)%nat /\
    ((bisect_right (x :: l) o < List.length (x :: l))%nat ->
     (o < nth (bisect_right (x :: l) o) (x :: l) 0)%nat).
Proof.
  induction l as [|y l IH]; intros x o Hinc Hx.
  - cbn [bisect_right]. destruct (Nat.leb_spec x o); [|lia]. simpl. repeat split; lia.
  - cbn [increasing_from] in Hinc. destruct Hinc as [H1 H2].
    change (bisect_right (x :: y :: l) o)
      with (if (x <=? o)%nat then S (bisect_right (y :: l) o) else 0%nat).
    destruct (Nat.leb_spec x o); [|lia].
    destruct (Nat.leb_spec y o) as [Hy|Hy].
    + destruct (IH y o H2 Hy) as [[Ia Ib] [Ic Id]].
      remember (bisect_right (y :: l) o) as k.
      cbn [List.length] in *. repeat split; try lia.
      * replace (S k - 1)%nat with (S (k - 1)) by lia. cbn [nth]. exact Ic.
      * intro Hk. cbn [nth]. apply Id. lia.
    + assert (E : bisect_right (y :: l) o = 0%nat).
      { cbn [bisect_right]. destruct (Nat.leb_spec y o); [lia|reflexivity]. }
      rewrite E. change (1 - 1)%nat with 0%nat.
      cbn [List.length nth]. repeat split; try lia.
Qed.

(** The row of the cursor is a row of the document, and starts at or before
    the cursor. *)
Lemma cursor_row_in_document :
  forall d,
    (cursor_position_row d < List.length (lines d))%nat /\
    (nth (cursor_position_row d) (line_start_indexes d) 0 <= doc_cursor_position d)%nat /\
    (doc_cursor_position d
     = nth (cursor_position_row d) (line_start_indexes d) 0 + cursor_position_col d)%nat /\
    ((S (cursor_position_row d) < List.length (lines d))%nat ->
     (doc_cursor_position d < nth (S (cursor_position_row d)) (line_start_indexes d) 0)%nat).
Proof.
  intro d. unfold cursor_position_row, cursor_position_col, find_line_start_index.
  cbn [fst snd].
  destruct (line_start_indexes_shape d) as [rest [Hs Hinc]].
  pose proof (line_start_indexes_length d) as Hlen. rewrite Hs in *.
  destruct (bisect_right_locates rest 0%nat (doc_cursor_position d) Hinc (Nat.le_0_l _))
    as [[Ha Hb] [Hc Hd]].
  remember (bisect_right (0%nat :: rest) (doc_cursor_position d)) as k.
  repeat split; try lia.
  intro H. replace (S (k - 1)) with k by lia. apply Hd. lia.
Qed.

Lemma total_firstn_succ :
  forall ls i,
    (i < List.length ls)%nat ->
    total (firstn (S i) ls)
    = (total (firstn i ls) + (String.length (nth i ls EmptyString) + 1))%nat.
Proof.
  induction ls as [|l ls IH]; intros i Hi; [simpl in Hi; lia|].
  destruct i as [|i]; [simpl; lia|].
  change (firstn (S (S i)) (l :: ls)) with (l :: firstn (S i) ls).
  change (firstn (S i) (l :: ls)) with (l :: firstn i ls).
  cbn [total nth]. rewrite IH by (simpl in Hi; lia). lia.
Qed.

(** The cursor is not behind the end of its row. *)
Lemma cursor_col_in_row :
  forall d,
    (doc_cursor_position d <= String.length (doc_text d))%nat ->
    (cursor_position_col d
     <= String.length (nth (cursor_position_row d) (lines d) EmptyString))%nat.
Proof.
  intros d Hv.
  destruct (cursor_row_in_document d) as [Hr [Hle [Heq Hnext]]].
  set (r := cursor_position_row d) in *.
  pose proof (line_start_is_prefix_total d r Hr) as Hstart.
  destruct (Nat.eq_dec (S r) (List.length (lines d))) as [Hlast|Hmid].
  - pose proof (last_line_start d) as Hl.
    pose proof (line_start_indexes_length d) as Hlen.
    rewrite <- (nth_length_pred_last _ (line_start_indexes d) 0%nat) in Hl.
    rewrite <- (nth_length_pred_last _ (lines d) EmptyString) in Hl.
    rewrite Hlen in Hl.
    replace (List.length (lines d) - 1)%nat with r in Hl by lia. lia.
  - specialize (Hnext ltac:(lia)).
    rewrite (line_start_is_prefix_total d (S r)) in Hnext by lia.
    rewrite total_firstn_succ in Hnext by lia. lia.
Qed.

(** X15.  The row and the column of the cursor, which the status bar shows,
    name the cursor: translated back to an offset they give the cursor
    position, for every cursor inside the text. *)
Theorem row_and_column_name_the_cursor :
  forall d : Document,
    (doc_cursor_position d <= String.length (doc_text d))%nat ->
    translate_row_col_to_index d (Z.of_nat (cursor_position_row d))
                               (Z.of_nat (cursor_position_col d))
    = Z.of_nat (doc_cursor_position d).
Proof.
  intros d Hv.
  destruct (cursor_row_in_document d) as [Hr [Hle [Heq _]]].
  pose proof (cursor_col_in_row d Hv) as Hcol.
  unfold translate_row_col_to_index.
  rewrite (index_inside _ (line_start_indexes d) _ 0%nat)
    by (rewrite line_start_indexes_length; lia).
  rewrite (index_inside _ (lines d) _ EmptyString) by lia.
  rewrite Nat2Z.id. unfold len. lia.
Qed.

Lemma row_and_column_name_the_cursor_ten_lines :
  cursor_position_row (mkDocument (text (ed_buffer ten_lines)) 19 None) = 9%nat /\
  cursor_position_col (mkDocument (text (ed_buffer ten_lines)) 19 None) = 1%nat /\
  translate_row_col_to_index (mkDocument (text (ed_buffer ten_lines)) 19 None) 9 1 = 19%Z.
Proof.
  split; [reflexivity|]. split; [reflexivity|].
  refine (row_and_column_name_the_cursor
            (mkDocument (text (ed_buffer ten_lines)) 19 None) _).
  vm_compute. repeat constructor.
Defined.

(** Go to the row of the cursor, in any spelling of its number. *)
Lemma goto_row_of_cursor :
  forall (ed : Editor) (line_str : string),
    int line_str
    = Ok (Z.of_nat (cursor_position_row (document (ed_buffer ed)) + 1)) ->
    exists ed',
      on_goto (Ok line_str) ed = (ed', Done) /\
      text (ed_buffer ed') = text (ed_buffer ed) /\
      cursor_position (ed_buffer ed')
      = (cursor_position (ed_buffer ed) - cursor_position_col (document (ed_buffer ed)))%nat /\
      cursor_position_row (document (ed_buffer ed'))
      = cursor_position_row (document (ed_buffer ed)) /\
      cursor_position_col (document (ed_buffer ed')) = 0%nat.
Proof.
  intros ed line_str Hint.
  set (d := document (ed_buffer ed)) in *.
  destruct (cursor_row_in_document d) as [Hr [Hle [Heq _]]].
  set (r := cursor_position_row d) in *.
  pose proof (line_start_inside_text d r Hr) as Hin.
  unfold on_goto. rewrite (int_ok_isdigit _ _ Hint), Hint.
  fold d. replace (Z.of_nat (r + 1) - 1)%Z with (Z.of_nat r) by lia.
  rewrite translate_inside_row by lia. rewrite Nat2Z.id.
  rewrite set_cursor_position_inside by exact Hin.
  eexists. split; [reflexivity|].
  cbn [with_message with_buffer ed_buffer text cursor_position].
  set (b' := mkBuffer (text (ed_buffer ed)) (nth r (line_start_indexes d) 0%nat)
                      (selection_state (ed_buffer ed)) (undo_stack (ed_buffer ed))
                      (redo_stack (ed_buffer ed))).
  assert (Hrc : cursor_position_row (document b') = r /\ cursor_position_col (document b') = 0%nat).
  { apply row_col_at_line_start; [exact Hr|reflexivity]. }
  destruct Hrc as [Hr' Hc'].
  split; [reflexivity|]. split; [|split; assumption].
  change (cursor_position (ed_buffer ed)) with (doc_cursor_position d). lia.
Qed.


(** ** Line numbers as text *)

Lemma int_digits_of_uint_acc :
  forall (d : Decimal.uint) (acc : positive),
    int_digits (Z.pos acc) (NilEmpty.string_of_uint d) = Z.pos (Pos.of_uint_acc d acc).
Proof.
  induction d; intro acc; cbn [NilEmpty.string_of_uint Pos.of_uint_acc int_digits];
    try reflexivity;
    match goal with
    | |- int_digits ?a _ = Z.pos (Pos.of_uint_acc _ ?b) =>
        replace a with (Z.pos b)
          by (rewrite ?Pos2Z.inj_add, ?Pos2Z.inj_mul;
              match goal with
              | |- context [Z.of_nat ?k] =>
                  let v := eval vm_compute in (Z.of_nat k) in
                  change (Z.of_nat k) with v
              end; lia);
        apply IHd
    end.
Qed.

Lemma int_digits_of_uint :
  forall d : Decimal.uint,
    int_digits 0 (NilEmpty.string_of_uint d) = Z.of_N (Pos.of_uint d).
Proof.
  induction d; cbn [NilEmpty.string_of_uint Pos.of_uint int_digits];
    try reflexivity; try exact IHd;
    match goal with
    | |- int_digits ?a _ = Z.of_N (N.pos (Pos.of_uint_acc _ ?b)) =>
        change a with (Z.pos b); apply int_digits_of_uint_acc
    end.
Qed.

Lemma string_of_uint_all_decimal :
  forall d : Decimal.uint, all_chars is_decimal (NilEmpty.string_of_uint d) = true.
Proof.
  induction d; cbn [NilEmpty.string_of_uint all_chars]; try reflexivity;
    rewrite IHd; reflexivity.
Qed.

(** What [str] prints for a number that is not negative, [int] reads back,
    up to the length [int] takes. *)
Lemma int_str :
  forall n : Z,
    (0 <= n)%Z ->
    (String.length (str n) <= max_str_digits)%nat ->
    int (str n) = Ok n.
Proof.
  intros n Hn Hlen. unfold str in *. destruct n as [|p|p]; [reflexivity| |lia].
  cbn [Z.to_int NilZero.string_of_int] in *. unfold NilZero.string_of_uint in *.
  pose proof (DecimalPos.Unsigned.to_uint_nonnil p) as Hnil.
  pose proof (DecimalPos.Unsigned.of_to p) as Hof.
  pose proof (int_digits_of_uint (Pos.to_uint p)) as Hd.
  pose proof (string_of_uint_all_decimal (Pos.to_uint p)) as Ha.
  assert (E : match Pos.to_uint p with
              | Decimal.Nil => "0"%string
              | _ => NilEmpty.string_of_uint (Pos.to_uint p)
              end = NilEmpty.string_of_uint (Pos.to_uint p))
    by (destruct (Pos.to_uint p); [congruence|reflexivity..]).
  rewrite E in *. clear E.
  assert (Hne : NilEmpty.string_of_uint (Pos.to_uint p) <> EmptyString)
    by (destruct (Pos.to_uint p); [congruence|discriminate..]).
  unfold int.
  destruct (NilEmpty.string_of_uint (Pos.to_uint p)) as [|c r] eqn:Es; [congruence|].
  rewrite Ha.
  destruct (Nat.ltb_spec max_str_digits (String.length (String c r))); [lia|].
  rewrite Hd, Hof. reflexivity.
Qed.

(** The decimal digits of a number are no more than its binary digits. *)
Lemma double_digits :
  forall d : Decimal.uint,
    (Decimal.nb_digits (Decimal.Little.double d) <= S (Decimal.nb_digits d))%nat /\
    (Decimal.nb_digits (Decimal.Little.succ_double d) <= S (Decimal.nb_digits d))%nat.
Proof.
  induction d as [|d [IH1 IH2]|d [IH1 IH2]|d [IH1 IH2]|d [IH1 IH2]|d [IH1 IH2]
                  |d [IH1 IH2]|d [IH1 IH2]|d [IH1 IH2]|d [IH1 IH2]|d [IH1 IH2]];
    cbn [Decimal.Little.double Decimal.Little.succ_double Decimal.nb_digits];
    split; lia.
Qed.

Lemma little_uint_digits :
  forall p : positive,
    (Decimal.nb_digits (Pos.to_little_uint p) <= Pos.size_nat p)%nat.
Proof.
  induction p as [p IH|p IH|]; cbn [Pos.to_little_uint Pos.size_nat].
  - pose proof (proj2 (double_digits (Pos.to_little_uint p))). lia.
  - pose proof (proj1 (double_digits (Pos.to_little_uint p))). lia.
  - cbn. lia.
Qed.

Lemma string_of_uint_length :
  forall d : Decimal.uint,
    String.length (NilEmpty.string_of_uint d) = Decimal.nb_digits d.
Proof.
  induction d; cbn [NilEmpty.string_of_uint String.length Decimal.nb_digits];
    congruence.
Qed.

Lemma str_length :
  forall p : positive, (String.length (str (Z.pos p)) <= Pos.size_nat p)%nat.
Proof.
  intro p. unfold str. cbn [Z.to_int NilZero.string_of_int].
  unfold NilZero.string_of_uint.
  pose proof (DecimalPos.Unsigned.to_uint_nonnil p) as Hnil.
  pose proof (little_uint_digits p) as Hd.
  assert (E : String.length (NilEmpty.string_of_uint (Pos.to_uint p))
              = Decimal.nb_digits (Pos.to_little_uint p)).
  { rewrite string_of_uint_length. unfold Pos.to_uint.
    apply DecimalFacts.nb_digits_rev. }
  destruct (Pos.to_uint p) eqn:Ep; [congruence| | | | | | | | | | ];
    rewrite E; exact Hd.
Qed.

Lemma str_length_bounded :
  forall n : Z,
    (0 <= n <= 2 ^ 63)%Z -> (String.length (str n) <= 64)%nat.
Proof.
  intros [|p|p] H; [cbn; lia| |lia].
  pose proof (str_length p) as Hs.
  assert (Hp : (p < 2 ^ 63 + 1)%positive) by lia.
  pose proof (Pos.size_nat_monotone _ _ Hp) as Hm.
  change (Pos.size_nat (2 ^ 63 + 1)) with 64%nat in Hm. lia.
Qed.

Lemma split_lines_length :
  forall s : string, (List.length (split_lines s) <= S (String.length s))%nat.
Proof.
  induction s as [|c s IH]; [simpl; lia|].
  cbn [split_lines String.length].
  destruct (Ascii.eqb c newline); [cbn [List.length]; lia|].
  destruct (split_lines s); cbn [List.length] in *; lia.
Qed.

(** The line number the status bar prints is far shorter than the longest
    number [int] takes, for every text a string can hold. *)
Lemma status_bar_line_fits :
  forall d : Document,
    (len (doc_text d) <= maxsize)%Z ->
    (String.length (str (Z.of_nat (cursor_position_row d + 1))) <= max_str_digits)%nat.
Proof.
  intros d Hsize.
  destruct (cursor_row_in_document d) as [Hr _].
  pose proof (split_lines_length (doc_text d)) as Hl. fold (lines d) in Hl.
  unfold len, maxsize in Hsize.
  assert (Hb : (0 <= Z.of_nat (cursor_position_row d + 1) <= 2 ^ 63)%Z) by lia.
  pose proof (str_length_bounded _ Hb) as Hs.
  unfold max_str_digits. lia.
Qed.

(** X16.  Go to the line the status bar shows for the cursor, typed as the
    status bar prints it (a number of no more than 4300 digits, the longest
    [int] takes; [status_bar_line_fits] shows that every text a string can
    hold gives such a number): the cursor moves back by its column to the
    start of its own line, the text is kept, and the status bar then shows the
    same line, column 1. *)
Theorem goto_line_of_status_bar :
  forall ed : Editor,
    (String.length (str (Z.of_nat (cursor_position_row (document (ed_buffer ed)) + 1)))
     <= max_str_digits)%nat ->
    exists ed',
      on_goto (Ok (str (Z.of_nat (cursor_position_row (document (ed_buffer ed)) + 1)))) ed
      = (ed', Done) /\
      text (ed_buffer ed') = text (ed_buffer ed) /\
      cursor_position (ed_buffer ed')
      = (cursor_position (ed_buffer ed) - cursor_position_col (document (ed_buffer ed)))%nat /\
      cursor_position_row (document (ed_buffer ed'))
      = cursor_position_row (document (ed_buffer ed)) /\
      cursor_position_col (document (ed_buffer ed')) = 0%nat.
Proof.
  intros ed Hlen. apply goto_row_of_cursor. apply int_str; [lia|exact Hlen].
Qed.

Lemma goto_line_of_status_bar_ten_lines :
  let ed := with_buffer (mkBuffer (text (ed_buffer ten_lines)) 19 None [] []) ten_lines in
  str (Z.of_nat (cursor_position_row (document (ed_buffer ed)) + 1)) = "10" /\
  exists ed',
    on_goto (Ok "10") ed = (ed', Done) /\ cursor_position (ed_buffer ed') = 18%nat.
Proof.
  cbv zeta. split; [reflexivity|].
  destruct (goto_line_of_status_bar
              (with_buffer (mkBuffer (text (ed_buffer ten_lines)) 19 None [] []) ten_lines))
    as [ed' [Hg [_ [Hc _]]]].
  - vm_compute. repeat constructor.
  - exists ed'. split; [exact Hg|]. rewrite Hc. reflexivity.
Defined.

(** ** Undo and redo as the handlers alone *)

(** X17.  Called one after the other, without the key processor in between,
    the undo and redo handlers are inverse: when undo finds a snapshot with
    another text, it puts that snapshot back, and redo right after it puts
    back the text and the cursor undo started from. *)
Theorem redo_handler_inverts_undo_handler :
  forall (ed : Editor) (t : string) (c : nat) (B : list (string * nat)),
    valid ed ->
    strip (text (ed_buffer ed)) (undo_stack (ed_buffer ed)) = (t, c) :: B ->
    (c <= String.length t)%nat ->
    exists ed1 ed2,
      on_undo ed = (ed1, Done) /\
      text (ed_buffer ed1) = t /\
      cursor_position (ed_buffer ed1) = c /\
      on_redo ed1 = (ed2, Done) /\
      text (ed_buffer ed2) = text (ed_buffer ed) /\
      cursor_position (ed_buffer ed2) = cursor_position (ed_buffer ed) /\
      redo_stack (ed_buffer ed2) = redo_stack (ed_buffer ed).
Proof.
  intros ed t c B Hv Hs Hc.
  pose proof (strip_head_differs _ _ _ _ _ Hs) as Hne.
  unfold on_undo, undo.
  rewrite (undo_loop_restores _ (ed_buffer ed) t c B Hs Hc).
  eexists. eexists. split; [reflexivity|].
  cbn [with_message with_buffer ed_buffer text cursor_position].
  split; [reflexivity|]. split; [reflexivity|].
  unfold on_redo, redo.
  cbn [with_message with_buffer ed_buffer redo_stack save_to_undo_stack
       text cursor_position selection_state undo_stack].
  unfold new_document. unfold valid in Hv.
  destruct (Nat.ltb_spec (String.length (text (ed_buffer ed)))
              (cursor_position (ed_buffer ed))); [lia|].
  split; [reflexivity|]. repeat split.
Qed.

Lemma redo_handler_inverts_undo_handler_hello :
  exists ed1 ed2,
    on_undo hello = (ed1, Done) /\ text (ed_buffer ed1) = "h" /\
    on_redo ed1 = (ed2, Done) /\ text (ed_buffer ed2) = "hello" /\
    cursor_position (ed_buffer ed2) = 2%nat.
Proof.
  assert (Hv : valid hello) by (unfold valid; simpl; lia).
  destruct (redo_handler_inverts_undo_handler hello "h" 1%nat [] Hv eq_refl
              ltac:(simpl; lia))
    as [ed1 [ed2 [Hu [Ht [_ [Hr [Ht2 [Hc2 _]]]]]]]].
  exists ed1, ed2. repeat split; assumption.
Defined.
